(** * Service authentication of the ATT&CK Workbench REST API

    A shallow embedding of [app/services/authn-service.js] (challenge
    issuance, challenge redemption, the [authenticate] middleware) and of
    [app/routes/user-accounts-routes.js] (the user-accounts router), with
    the library calls the two files make: [crypto.randomBytes],
    [Buffer.toString('base64')], [crypto.createHmac('sha256', _)],
    [NodeCache], [jwt.sign] and the Express router. *)

From Stdlib Require Import NArith ZArith List String Ascii Bool Lia.
From Stdlib.Strings Require Import Byte.
From stdpp Require Import gmap strings pretty.
Import ListNotations.

Local Open Scope string_scope.

(** ** Bytes and buffers *)

(** A Node [Buffer] is a sequence of octets. *)
Abbreviation Buffer := (list byte).

Definition byte_of_N (n : N) : byte :=
  match Byte.of_N (n mod 256) with
  | Some b => b
  | None => x00
  end.

Definition bytes_of_string (s : string) : Buffer := list_byte_of_string s.

(** ** [Buffer.prototype.toString('base64')] *)
Module Base64.
Local Open Scope N_scope.

Definition alphabet : string :=
  "ABCDEFGHIJKLMNOPQRSTUVWXYZ" ++ "abcdefghijklmnopqrstuvwxyz" ++ "0123456789" ++ "+/".

Definition pad : ascii := "="%char.

(** The character of a six-bit group. *)
Definition char_of (i : N) : ascii :=
  match String.get (N.to_nat i) alphabet with
  | Some c => c
  | None => pad
  end.

(** The six-bit group of a character, for the characters of the alphabet. *)
Definition index_of (c : ascii) : option N :=
  let n := N_of_ascii c in
  if (65 <=? n) && (n <=? 90) then Some (n - 65)
  else if (97 <=? n) && (n <=? 122) then Some (n - 71)
  else if (48 <=? n) && (n <=? 57) then Some (n + 4)
  else if n =? 43 then Some 62
  else if n =? 47 then Some 63
  else None.

(** The four six-bit groups of three octets. *)
Definition sextets (a b c : N) : N * N * N * N :=
  (a / 4, (a mod 4) * 16 + b / 16, (b mod 16) * 4 + c / 64, c mod 64).

Fixpoint encode_N (l : list N) : string :=
  match l with
  | [] => ""
  | [a] =>
      let '(s0, s1, _, _) := sextets a 0 0 in
      String (char_of s0) (String (char_of s1) (String pad (String pad "")))
  | [a; b] =>
      let '(s0, s1, s2, _) := sextets a b 0 in
      String (char_of s0) (String (char_of s1) (String (char_of s2) (String pad "")))
  | a :: b :: c :: rest =>
      let '(s0, s1, s2, s3) := sextets a b c in
      String (char_of s0) (String (char_of s1) (String (char_of s2)
        (String (char_of s3) (encode_N rest))))
  end.

Definition encode (buf : Buffer) : string := encode_N (map Byte.to_N buf).

End Base64.

(** Lists of numbers that are octets. *)
Definition octets (l : list N) : Prop := Forall (fun n => (n < 256)%N) l.

(** Name the quotient and the remainder of [a] by the constant [k], for
    linear arithmetic. *)
Ltac euclid a k :=
  let Hd := fresh "Hdiv" in
  let Hm := fresh "Hmod" in
  assert (Hd : (a = k * (a / k) + a mod k)%N) by (apply N.div_mod; discriminate);
  assert (Hm : (a mod k < k)%N) by (apply N.mod_lt; discriminate);
  generalize dependent (a / k)%N; generalize dependent (a mod k)%N; intros.

Ltac sextet_arith :=
  repeat match goal with
         | |- context [(?a / ?k)%N] => euclid a k
         | H : context [(?a / ?k)%N] |- _ => euclid a k
         | |- context [(?a mod ?k)%N] => euclid a k
         | H : context [(?a mod ?k)%N] |- _ => euclid a k
         end;
  lia.

(** ** [digest('hex')] *)
Module Hex.
Local Open Scope N_scope.

Definition digit (n : N) : ascii :=
  if n <? 10 then ascii_of_N (48 + n) else ascii_of_N (87 + n).

Fixpoint encode_N (l : list N) : string :=
  match l with
  | [] => ""
  | b :: rest => String (digit (b / 16)) (String (digit (b mod 16)) (encode_N rest))
  end.

Definition encode (buf : Buffer) : string := encode_N (map Byte.to_N buf).

End Hex.

(** ** SHA-256 and HMAC ([crypto.createHmac('sha256', key)]) *)
Module Sha256.
Local Open Scope N_scope.
Local Open Scope list_scope.

Definition mask32 : N := 4294967295.
Definition add32 (x y : N) : N := N.land (x + y) mask32.
Definition rotr (n x : N) : N :=
  N.lor (N.shiftr x n) (N.land (N.shiftl x (32 - n)) mask32).
Definition not32 (x : N) : N := N.lxor x mask32.

Definition Ch (x y z : N) : N := N.lxor (N.land x y) (N.land (not32 x) z).
Definition Maj (x y z : N) : N :=
  N.lxor (N.lxor (N.land x y) (N.land x z)) (N.land y z).
Definition bsig0 (x : N) : N := N.lxor (N.lxor (rotr 2 x) (rotr 13 x)) (rotr 22 x).
Definition bsig1 (x : N) : N := N.lxor (N.lxor (rotr 6 x) (rotr 11 x)) (rotr 25 x).
Definition ssig0 (x : N) : N := N.lxor (N.lxor (rotr 7 x) (rotr 18 x)) (N.shiftr x 3).
Definition ssig1 (x : N) : N := N.lxor (N.lxor (rotr 17 x) (rotr 19 x)) (N.shiftr x 10).

(** The round constants and the initial state are the first 32 bits of the
    fractional parts of the cube roots, respectively square roots, of the
    first primes; they are computed here rather than tabulated. *)
Definition primes : list N :=
  [2; 3; 5; 7; 11; 13; 17; 19; 23; 29; 31; 37; 41; 43; 47; 53;
   59; 61; 67; 71; 73; 79; 83; 89; 97; 101; 103; 107; 109; 113; 127; 131;
   137; 139; 149; 151; 157; 163; 167; 173; 179; 181; 191; 193; 197; 199;
   211; 223; 227; 229; 233; 239; 241; 251; 257; 263; 269; 271; 277; 281;
   283; 293; 307; 311].

Fixpoint root_bits (k : N) (bits : nat) (n r : N) : N :=
  match bits with
  | O => r
  | S bits' =>
      let c := r + 2 ^ N.of_nat bits' in
      root_bits k bits' n (if c ^ k <=? n then c else r)
  end.

Definition frac_root (k : N) (p : N) : N :=
  N.land (root_bits k 40 (p * 2 ^ (32 * k)) 0) mask32.

Definition K : list N := Eval vm_compute in map (frac_root 3) primes.
Definition H0 : list N := Eval vm_compute in map (frac_root 2) (firstn 8 primes).

(** Big-endian words. *)
Definition be_bytes (len : nat) (n : N) : list N :=
  map (fun i => N.land (N.shiftr n (8 * N.of_nat i)) 255) (rev (seq 0 len)).

Fixpoint be_words (l : list N) : list N :=
  match l with
  | a :: b :: c :: d :: rest =>
      (((a * 256 + b) * 256 + c) * 256 + d) :: be_words rest
  | _ => []
  end.

Definition padding (len : nat) : list N :=
  let l := N.of_nat len in
  let k := (119 - l mod 64) mod 64 in
  128 :: repeat 0 (N.to_nat k) ++ be_bytes 8 (8 * l).

Fixpoint schedule (n : nat) (W : list N) : list N :=
  match n with
  | O => W
  | S n' =>
      let t := length W in
      let at_ i := nth (t - i) W 0 in
      schedule n' (W ++ [add32 (add32 (ssig1 (at_ 2%nat)) (at_ 7%nat))
                               (add32 (ssig0 (at_ 15%nat)) (at_ 16%nat))])
  end.

Definition State : Type := N * N * N * N * N * N * N * N.

Definition round (s : State) (kw : N * N) : State :=
  let '(a, b, c, d, e, f, g, h) := s in
  let '(k, w) := kw in
  let t1 := add32 (add32 (add32 h (bsig1 e)) (add32 (Ch e f g) k)) w in
  let t2 := add32 (bsig0 a) (Maj a b c) in
  (add32 t1 t2, a, b, c, add32 d t1, e, f, g).

Definition compress (s : State) (block : list N) : State :=
  let W := schedule 48 (be_words block) in
  let '(a, b, c, d, e, f, g, h) := fold_left round (combine K W) s in
  let '(a0, b0, c0, d0, e0, f0, g0, h0) := s in
  (add32 a0 a, add32 b0 b, add32 c0 c, add32 d0 d,
   add32 e0 e, add32 f0 f, add32 g0 g, add32 h0 h).

Fixpoint blocks (n : nat) (l : list N) : list (list N) :=
  match n with
  | O => []
  | S n' => firstn 64 l :: blocks n' (skipn 64 l)
  end.

Definition init : State :=
  match H0 with
  | [a; b; c; d; e; f; g; h] => (a, b, c, d, e, f, g, h)
  | _ => (0, 0, 0, 0, 0, 0, 0, 0)
  end.

Definition hash_N (msg : list N) : list N :=
  let padded := msg ++ padding (length msg) in
  let '(a, b, c, d, e, f, g, h) :=
    fold_left compress (blocks (length padded / 64) padded) init in
  flat_map (be_bytes 4) [a; b; c; d; e; f; g; h].

Definition block_size : nat := 64.

(** HMAC (RFC 2104) over SHA-256. *)
Definition hmac_N (key msg : list N) : list N :=
  let k0 := if (block_size <? length key)%nat then hash_N key else key in
  let k := k0 ++ repeat 0 (block_size - length k0) in
  let ipad := map (N.lxor 54) k in
  let opad := map (N.lxor 92) k in
  hash_N (opad ++ hash_N (ipad ++ msg)).

Definition hash (msg : Buffer) : Buffer :=
  map byte_of_N (hash_N (map Byte.to_N msg)).

Definition hmac (key msg : Buffer) : Buffer :=
  map byte_of_N (hmac_N (map Byte.to_N key) (map Byte.to_N msg)).

End Sha256.

(** [crypto.createHmac('sha256', key).update(data).digest('hex')]: strings
    are taken as their octets. *)
Definition hmac_sha256_hex (key data : string) : string :=
  Hex.encode (Sha256.hmac (bytes_of_string key) (bytes_of_string data)).


(** ** Configuration

    [app/config/config.js] is not part of the sources: the configuration is a
    value with the fields the service reads, and every operation takes it as
    an argument. *)
Module ServiceAccount.
Record t := mk { name : string; apikey : string }.
End ServiceAccount.

Module Apikey.
Record t := mk {
  enable : bool;
  secret : string;
  tokenTimeout : Z;
  serviceAccounts : list ServiceAccount.t
}.
End Apikey.

Module OidcClientCredentials.
Record t := mk { enable : bool }.
End OidcClientCredentials.

Module ServiceAuthn.
Record t := mk {
  oidcClientCredentials : OidcClientCredentials.t;
  apikey : Apikey.t
}.
End ServiceAuthn.

Record Config := { serviceAuthn : ServiceAuthn.t }.

(** ** The state the service works on *)

(** The value cached for a service: the challenge string and the apikey. *)
Record CachedValue := { challenge : string; apikey : string }.

(** A cache slot: the value and the instant (in milliseconds) after which it
    is no longer returned. *)
Record Slot := { value : CachedValue; deadline : Z }.

(** The random source: an unbounded supply of octets, and how many of them
    have been handed out. *)
Record Entropy := { tape : nat -> byte; drawn : nat }.

Record World := { cache : gmap string Slot; entropy : Entropy }.

(** ** Exceptions and the monad of the service

    A function of the service reads and writes the world and either returns
    or throws; what it did to the world before throwing stays done. *)
Record JsError := Error { message : string }.

Inductive Result (A : Type) : Type :=
| Return (a : A)
| Throw (e : JsError).
Arguments Return {A} a.
Arguments Throw {A} e.

Definition M (A : Type) : Type := World -> Result A * World.

Definition ret {A} (a : A) : M A := fun w => (Return a, w).
Definition throw {A} (e : JsError) : M A := fun w => (Throw e, w).
Definition bind {A B} (m : M A) (k : A -> M B) : M B :=
  fun w =>
    match m w with
    | (Return a, w') => k a w'
    | (Throw e, w') => (Throw e, w')
    end.

Notation "x <- m ;; k" := (bind m (fun x => k))
  (at level 100, m at next level, right associativity).

(** ** [crypto.randomBytes]

    The call returns the next [size] octets of the random source and moves
    the source past them. The source is taken to have octets to give: the
    failure of the system's generator is not modelled. *)
Definition next_bytes (size : nat) (e : Entropy) : Buffer :=
  map (tape e) (seq (drawn e) size).

Definition advance (size : nat) (e : Entropy) : Entropy :=
  {| tape := tape e; drawn := drawn e + size |}.

Definition randomBytes (size : nat) : M Buffer :=
  fun w =>
    (Return (next_bytes size (entropy w)),
     {| cache := cache w; entropy := advance size (entropy w) |}).

(** ** The challenge cache

    Modelled from the spec: the Challenge Cache of section 4.2, in the code an
    instance of the [node-cache] package, whose sources are not part of the
    repository. [set] overwrites the slot of the key and gives it a new
    deadline [ttl] seconds ahead; [get] returns nothing for a key that was
    never set, was removed or is past its deadline (and drops such a slot);
    [take] is [get] followed by the removal of the key. *)
Module NodeCache.

Definition set (now : Z) (key : string) (val : CachedValue) (ttl : Z) : M bool :=
  fun w =>
    (Return true,
     {| cache := <[key := {| value := val; deadline := now + ttl * 1000 |}]> (cache w);
        entropy := entropy w |}).

Definition del (key : string) : M unit :=
  fun w => (Return tt, {| cache := delete key (cache w); entropy := entropy w |}).

Definition get (now : Z) (key : string) : M (option CachedValue) :=
  fun w =>
    match cache w !! key with
    | Some slot =>
        if (deadline slot <? now)%Z then (_ <- del key ;; ret None) w
        else (Return (Some (value slot)), w)
    | None => (Return None, w)
    end.

Definition take (now : Z) (key : string) : M (option CachedValue) :=
  ret_ <- get now key ;;
  match ret_ with
  | Some _ => _ <- del key ;; ret ret_
  | None => ret ret_
  end.

End NodeCache.

(** ** [app/services/authn-service.js] *)

Definition generateNonce : M string :=
  let byteLength := 48%nat in
  buffer <- randomBytes byteLength ;;
  let nonce := Base64.encode buffer in
  ret nonce.

Module errors.
Definition serviceNotFound : string := "Service not found".
Definition invalidChallengeHash : string := "Invalid challenge hash".
Definition challengeNotFound : string := "Challenge not found".
End errors.

(** [now] is the reading of the clock ([Date.now()], in milliseconds) during
    the call. *)
Definition createChallenge (config : Config) (now : Z) (serviceName : string)
  : M string :=
  (* Verify that the service is on the list of configured services and get the apikey *)
  let services := Apikey.serviceAccounts (ServiceAuthn.apikey (serviceAuthn config)) in
  let service :=
    find (fun s => String.eqb (ServiceAccount.name s) serviceName) services in
  match service with
  | None => throw (Error errors.serviceNotFound)
  | Some service =>
      (* Generate the challenge string *)
      challenge <- generateNonce ;;
      (* Save the challenge string and apikey in the cache *)
      _ <- NodeCache.set now serviceName
             {| challenge := challenge; apikey := ServiceAccount.apikey service |} 60 ;;
      (* Return the challenge *)
      ret challenge
  end.

(** The claims of a token and what [createToken] returns. *)
Record Payload := { serviceName : string; exp : Z }.
Record TokenResponse := { token : string; expiresIn : Z }.

(** [jwt.sign(payload, secretOrPrivateKey)] belongs to the [jsonwebtoken]
    package; it also reads the clock (for the issue time), so a signer is a
    function of the clock, the payload and the key. The call is taken to
    return a token: the package refuses a key only when it is unusable for
    signing, which is a matter of deployment and not of this service. *)
Definition Signer : Type := Z -> Payload -> string -> string.

Definition createToken (jwt_sign : Signer) (config : Config) (now : Z)
  (serviceName challengeHash : string) : M TokenResponse :=
  (* Get the cached challenge and apikey *)
  cachedValue <- NodeCache.take now serviceName ;;
  match cachedValue with
  | None => throw (Error errors.challengeNotFound)
  | Some {| challenge := challenge; apikey := apikey |} =>
      (* Generate the hash *)
      let digest := hmac_sha256_hex apikey challenge in
      (* Does the generated hash match the hash provided in the request? *)
      if negb (String.eqb digest challengeHash) then
        throw (Error errors.invalidChallengeHash)
      else
        (* Create the payload *)
        let timeout := Apikey.tokenTimeout (ServiceAuthn.apikey (serviceAuthn config)) in
        let payload :=
          {| serviceName := serviceName; exp := (now / 1000 + timeout)%Z |} in
        (* Generate the access token and return it *)
        let token :=
          jwt_sign now payload (Apikey.secret (ServiceAuthn.apikey (serviceAuthn config))) in
        ret {| token := token; expiresIn := timeout |}
  end.

(** *** Vocabulary for statements about issuance *)

(** The service accounts of a configuration, and the account [createChallenge]
    picks for a name: the first one with that very name. *)
Definition accounts (config : Config) : list ServiceAccount.t :=
  Apikey.serviceAccounts (ServiceAuthn.apikey (serviceAuthn config)).

Definition account_of (config : Config) (name : string) : option ServiceAccount.t :=
  find (fun s => String.eqb (ServiceAccount.name s) name) (accounts config).

(** *** Vocabulary for statements about redemption *)

(** The token a successful redemption returns. *)
Definition issued (jwt_sign : Signer) (config : Config) (now : Z) (name : string)
  : TokenResponse :=
  let apikey := ServiceAuthn.apikey (serviceAuthn config) in
  {| token :=
       jwt_sign now
         {| serviceName := name; exp := (now / 1000 + Apikey.tokenTimeout apikey)%Z |}
         (Apikey.secret apikey);
     expiresIn := Apikey.tokenTimeout apikey |}.

(** The proof a cached value asks for. *)
Definition expected (c : CachedValue) : string :=
  hmac_sha256_hex (apikey c) (challenge c).

(** The slot of a service, when it can still be redeemed at [now]. *)
Definition live (now : Z) (name : string) (w : World) : option CachedValue :=
  match cache w !! name with
  | Some slot => if (deadline slot <? now)%Z then None else Some (value slot)
  | None => None
  end.

Definition consumed (name : string) (w : World) : World :=
  {| cache := delete name (cache w); entropy := entropy w |}.

(** *** The [authenticate] middleware *)

(** The identity attached to a request, with its roles. *)
Record Principal := { identity : string; roles : list string }.

Inductive Method := GET | POST | PUT | DELETE | PATCH | HEAD | OPTIONS.

(** What the middleware reads of a request: [authorization] is what
    [req.get('Authorization')] returns ([None] for [undefined]) and [user] is
    the identity an earlier login left in the session, if any. *)
Record Request := {
  method : Method;
  url : string;
  authorization : option string;
  user : option Principal
}.

(** A value used as a condition: [undefined] and the empty string are falsy. *)
Definition truthy (h : option string) : bool :=
  match h with
  | Some s => negb (String.eqb s "")
  | None => false
  end.

(** [req.isAuthenticated()]: an identity is established for the request. *)
Definition isAuthenticated (req : Request) : bool :=
  match user req with
  | Some _ => true
  | None => false
  end.

(** The call a middleware ends with. *)
Inductive Action :=
| CallBearer (req : Request)            (* authnBearer.authenticate(req, res, next) *)
| CallNext (req : Request)              (* next() *)
| Respond (status : nat) (body : string). (* res.status(status).send(body) *)

Definition authenticate (config : Config) (req : Request) : Action :=
  if (OidcClientCredentials.enable (ServiceAuthn.oidcClientCredentials (serviceAuthn config))
      || Apikey.enable (ServiceAuthn.apikey (serviceAuthn config)))
     && truthy (authorization req)
  then
    (* Authorization header found *)
    (* Authenticate the user using the Bearer token *)
    CallBearer req
  else if isAuthenticated req then
    (* User has been authenticated using a non-Bearer strategy *)
    CallNext req
  else
    Respond 401 "Not authorized".

(** ** [app/routes/user-accounts-routes.js] *)

(** How a handler leaves a request: a response was sent, or [next()] passed
    the request on. *)
Inductive Outcome :=
| Sent (status : nat) (body : string)
| Next (req : Request).

Module userAccountsController.
Inductive op := retrieveAll | create | retrieveById | updateFull | delete | register.
End userAccountsController.

Inductive Handler :=
| authn_authenticate
| authz_requireRole (role : string)
| controller (o : userAccountsController.op).

(** A layer of a route: the verb it was registered for and its handler. *)
Definition Layer : Type := Method * Handler.

Record Route := { path : string; stack : list Layer }.

Definition verb (m : Method) (handlers : list Handler) : list Layer :=
  map (pair m) handlers.

Definition Method_eqb (a b : Method) : bool :=
  match a, b with
  | GET, GET | POST, POST | PUT, PUT | DELETE, DELETE
  | PATCH, PATCH | HEAD, HEAD | OPTIONS, OPTIONS => true
  | _, _ => false
  end.

Definition has_role (role : string) (p : option Principal) : bool :=
  match p with
  | Some p => existsb (String.eqb role) (roles p)
  | None => false
  end.

(** Carrying out the call [authenticate] ends with, given the bearer
    strategy [authnBearer.authenticate] (of [lib/authn-bearer], not part of
    the sources). *)
Definition perform (authnBearer_authenticate : Request -> Outcome) (a : Action) : Outcome :=
  match a with
  | CallBearer req => authnBearer_authenticate req
  | CallNext req => Next req
  | Respond status body => Sent status body
  end.

(** The [authenticate] of the service as a handler of a chain. *)
Definition authenticate_handler (authnBearer_authenticate : Request -> Outcome)
  (config : Config) (req : Request) : Outcome :=
  perform authnBearer_authenticate (authenticate config req).

Section Routes.

(** What the router is built from and is not part of the sources: the
    administrator role constant [authz.admin], the text of the gate's
    rejection, the [authenticate] middleware of [lib/authn-middleware], the
    operations of the user-accounts controller, and the path matching of the
    Express router. *)
Variable admin : string.
Variable forbidden : string.
Variable authn_authenticate_run : Request -> Outcome.
Variable userAccountsController_run : userAccountsController.op -> Request -> Outcome.
Variable layer_match : string -> string -> bool.

Definition router : list Route :=
  [ {| path := "/user-accounts";
       stack :=
         verb GET [authn_authenticate; authz_requireRole admin;
                   controller userAccountsController.retrieveAll]
         ++ verb POST [authn_authenticate; authz_requireRole admin;
                       controller userAccountsController.create] |};
    {| path := "/user-accounts/:id";
       stack :=
         verb GET [authn_authenticate; authz_requireRole admin;
                   controller userAccountsController.retrieveById]
         ++ verb PUT [authn_authenticate; authz_requireRole admin;
                      controller userAccountsController.updateFull]
         ++ verb DELETE [authn_authenticate; authz_requireRole admin;
                         controller userAccountsController.delete] |};
    {| path := "/user-accounts/register";
       stack :=
         verb POST [authn_authenticate; authz_requireRole admin;
                    controller userAccountsController.register] |} ]%list.

(** Modelled from the spec: the Authorization Gate of section 4.6, whose
    module ([lib/authz-middleware]) is not part of the sources. A request
    whose principal is absent or lacks the role is rejected with a 403
    response; the others proceed. *)
Definition requireRole (role : string) (req : Request) : Outcome :=
  if has_role role (user req) then Next req else Sent 403 forbidden.

Definition handle (h : Handler) (req : Request) : Outcome :=
  match h with
  | authn_authenticate => authn_authenticate_run req
  | authz_requireRole role => requireRole role req
  | controller o => userAccountsController_run o req
  end.

(** A chain of handlers runs until one of them sends a response; the
    handlers that were invoked are recorded in order. *)
Fixpoint run (handlers : list Handler) (req : Request) : list Handler * Outcome :=
  match handlers with
  | [] => ([], Next req)
  | h :: rest =>
      match handle h req with
      | Next req' => let '(tr, o) := run rest req' in (h :: tr, o)
      | Sent status body => ([h], Sent status body)
      end
  end.

(** A route answers a HEAD request with its GET handlers when it has none
    for HEAD. *)
Definition handles (r : Route) (m : Method) : bool :=
  existsb (fun l => Method_eqb (fst l) m) (stack r).

Definition effective_method (r : Route) (m : Method) : Method :=
  match m with
  | HEAD => if handles r HEAD then HEAD else GET
  | _ => m
  end.

Definition chain (r : Route) (m : Method) : list Handler :=
  map snd (filter (fun l => Method_eqb (fst l) (effective_method r m)) (stack r)).

(** A route takes a request when its path matches and it has handlers for
    the verb. *)
Definition takes (r : Route) (req : Request) : bool :=
  layer_match (path r) (url req) && handles r (effective_method r (method req)).

(** The router tries its routes in order; a route whose chain ends with
    [next()] hands the request to the routes after it. *)
Fixpoint dispatch (routes : list Route) (req : Request) : list Handler * Outcome :=
  match routes with
  | [] => ([], Next req)
  | r :: rest =>
      if takes r req then
        match run (chain r (method req)) req with
        | (tr, Next req') => let '(tr', o) := dispatch rest req' in ((tr ++ tr')%list, o)
        | (tr, Sent status body) => (tr, Sent status body)
        end
      else dispatch rest req
  end.

End Routes.

(** ** A signer and a small deployment, to run the service on

    [HS256.sign] produces the compact form of a token signed with
    HMAC-SHA-256: the header, the claims (with the issue time) and the
    signature, each in URL-safe base64 without padding. *)
Module HS256.

Definition quote : string := String (ascii_of_nat 34) "".
Definition backslash : string := String (ascii_of_nat 92) "".

Fixpoint url_safe (s : string) : string :=
  match s with
  | "" => ""
  | String c rest =>
      if Ascii.eqb c "+" then String "-" (url_safe rest)
      else if Ascii.eqb c "/" then String "_" (url_safe rest)
      else if Ascii.eqb c "=" then url_safe rest
      else String c (url_safe rest)
  end.

Definition base64url (buf : Buffer) : string := url_safe (Base64.encode buf).

Fixpoint escape (s : string) : string :=
  match s with
  | "" => ""
  | String c rest =>
      if Ascii.eqb c (ascii_of_nat 34) then backslash ++ quote ++ escape rest
      else if Ascii.eqb c (ascii_of_nat 92) then backslash ++ backslash ++ escape rest
      else String c (escape rest)
  end.

Definition json_string (s : string) : string := quote ++ escape s ++ quote.

Definition header : string :=
  "{" ++ json_string "alg" ++ ":" ++ json_string "HS256" ++ ","
      ++ json_string "typ" ++ ":" ++ json_string "JWT" ++ "}".

Definition claims (now : Z) (payload : Payload) : string :=
  "{" ++ json_string "serviceName" ++ ":" ++ json_string (serviceName payload) ++ ","
      ++ json_string "exp" ++ ":" ++ pretty (exp payload) ++ ","
      ++ json_string "iat" ++ ":" ++ pretty (now / 1000)%Z ++ "}".

Definition sign : Signer :=
  fun now payload key =>
    let input :=
      base64url (bytes_of_string header) ++ "."
      ++ base64url (bytes_of_string (claims now payload)) in
    input ++ "." ++ base64url (Sha256.hmac (bytes_of_string key) (bytes_of_string input)).

End HS256.

Module Scenario.

(** Service [svc-A] with secret [k1]; tokens live for 300 seconds. *)
Definition config : Config :=
  {| serviceAuthn :=
       {| ServiceAuthn.oidcClientCredentials := {| OidcClientCredentials.enable := false |};
          ServiceAuthn.apikey :=
            {| Apikey.enable := true;
               Apikey.secret := "signing-secret";
               Apikey.tokenTimeout := 300;
               Apikey.serviceAccounts :=
                 [ {| ServiceAccount.name := "svc-A"; ServiceAccount.apikey := "k1" |} ] |} |} |}.

(** The same deployment with the service accounts removed. *)
Definition config_no_accounts : Config :=
  {| serviceAuthn :=
       {| ServiceAuthn.oidcClientCredentials := {| OidcClientCredentials.enable := false |};
          ServiceAuthn.apikey :=
            {| Apikey.enable := true;
               Apikey.secret := "signing-secret";
               Apikey.tokenTimeout := 300;
               Apikey.serviceAccounts := [] |} |} |}.

(** No bearer strategy enabled. *)
Definition config_sessions_only : Config :=
  {| serviceAuthn :=
       {| ServiceAuthn.oidcClientCredentials := {| OidcClientCredentials.enable := false |};
          ServiceAuthn.apikey :=
            {| Apikey.enable := false;
               Apikey.secret := "signing-secret";
               Apikey.tokenTimeout := 300;
               Apikey.serviceAccounts := [] |} |} |}.

Definition world0 : World :=
  {| cache := ∅;
     entropy := {| tape := fun i => byte_of_N (N.of_nat i * 37 + 11); drawn := 0 |} |}.

(** The instant of the first call, in milliseconds. *)
Definition t0 : Z := 1700000000123.

Definition nonce0 : string :=
  Eval vm_compute in
    match createChallenge config t0 "svc-A" world0 with
    | (Return c, _) => c
    | (Throw _, _) => ""
    end.

Definition world1 : World := snd (createChallenge config t0 "svc-A" world0).

Definition proof0 : string := Eval vm_compute in hmac_sha256_hex "k1" nonce0.

(** The challenge of a second call, right after the first. *)
Definition nonce1 : string :=
  Eval vm_compute in
    match createChallenge config t0 "svc-A" world1 with
    | (Return c, _) => c
    | (Throw _, _) => ""
    end.

(** The slot [svc-A] has after the first call. *)
Definition slot1 : Slot :=
  {| value := {| challenge := nonce0; apikey := "k1" |};
     deadline := (t0 + 60 * 1000)%Z |}.

Definition alice : Principal := {| identity := "alice"; roles := ["admin"] |}.
Definition bob : Principal := {| identity := "bob"; roles := ["editor"] |}.

Definition request (m : Method) (u : string) (h : option string) (p : option Principal)
  : Request :=
  {| method := m; url := u; authorization := h; user := p |}.

(** A bearer strategy that accepts one token, for [svc-A] as an
    administrator, and rejects the others. *)
Definition bearer (req : Request) : Outcome :=
  match authorization req with
  | Some "Bearer good" =>
      Next {| method := method req; url := url req; authorization := authorization req;
              user := Some {| identity := "svc-A"; roles := ["admin"] |} |}
  | _ => Sent 401 "Unauthorized"
  end.

(** Controller operations that answer 200. *)
Definition controllers (o : userAccountsController.op) (req : Request) : Outcome :=
  Sent 200 "ok".

(** Paths matched literally, [:id] standing for one segment. *)
Definition path_match (pattern u : string) : bool :=
  if String.eqb pattern "/user-accounts/:id" then
    String.prefix "/user-accounts/" u
    && negb (String.eqb u "/user-accounts/")
  else String.eqb pattern u.

End Scenario.


(** ** Vocabulary for further statements *)

(** Every character of a string passes a test. *)
Fixpoint string_forallb (p : ascii -> bool) (s : string) : bool :=
  match s with
  | "" => true
  | String c rest => p c && string_forallb p rest
  end.

(** The digits [0-9] and the letters [a-f]. *)
Definition is_lower_hex (c : ascii) : bool :=
  let n := N_of_ascii c in
  ((48 <=? n) && (n <=? 57) || (97 <=? n) && (n <=? 102))%N.

(** The characters of the base64 alphabet ([=] is not one of them). *)
Definition in_base64_alphabet (c : ascii) : bool :=
  match Base64.index_of c with
  | Some _ => true
  | None => false
  end.

(** The first route of a list that takes a request. *)
Definition first_taking (layer_match : string -> string -> bool) (routes : list Route)
  (req : Request) : option Route :=
  find (fun r => takes layer_match r req) routes.

(** Routes all of whose chains are authentication, the role check for
    [admin], one controller operation. *)
Definition guarded_routes (admin : string) (routes : list Route) : Prop :=
  forall r m, In r routes -> handles r (effective_method r m) = true ->
              exists o, chain r m = [authn_authenticate; authz_requireRole admin; controller o].

Module Further.

(** Controller operations that answer an administrator with 200 and anybody
    else with 500. *)
Definition controllers_strict (o : userAccountsController.op) (req : Request) : Outcome :=
  if has_role "admin" (user req) then Sent 200 "ok" else Sent 500 "not an administrator".

Definition collection : Route :=
  {| path := "/user-accounts";
     stack :=
       (verb GET [authn_authenticate; authz_requireRole "admin";
                  controller userAccountsController.retrieveAll]
        ++ verb POST [authn_authenticate; authz_requireRole "admin";
                      controller userAccountsController.create])%list |}.

Definition registration : Route :=
  {| path := "/user-accounts/register";
     stack :=
       verb POST [authn_authenticate; authz_requireRole "admin";
                  controller userAccountsController.register] |}.

End Further.

(** ** [app/services/technique-service.js]

    The functions of the service talk to the [Technique] model (mongoose) and
    to [uuid] through callbacks. A function is the tree of the calls it makes:
    a call to the model or to [uuid] with the continuation it passes, or the
    final call of [callback]. The model and [uuid] are not part of the
    sources; a driver that answers the calls is supplied when a tree runs. *)
Module TechniqueService.

Module errors.
Definition missingParameter : string := "Missing required parameter".
Definition badlyFormattedParameter : string := "Badly formatted parameter".
Definition duplicateId : string := "Duplicate id".
Definition notFound : string := "Document not found".
End errors.

(** An error object, with the properties the service reads and sets. *)
Record Err := {
  name : string;
  message : string;
  code : option Z;
  parameterName : option string
}.

(** [new Error(message)] *)
Definition new_Error (msg : string) : Err :=
  {| name := "Error"; message := msg; code := None; parameterName := None |}.

(** [error.parameterName = p] *)
Definition set_parameterName (p : string) (e : Err) : Err :=
  {| name := name e; message := message e; code := code e; parameterName := Some p |}.

(** A technique document: [_id], [stix.id] and the other properties of
    [stix]. *)
Record Stix := { id : option string; properties : list (string * string) }.
Record Technique := { _id : option string; stix : Stix }.

Definition set_id (i : string) (t : Technique) : Technique :=
  {| _id := Some i; stix := stix t |}.

Definition set_stix_id (i : option string) (t : Technique) : Technique :=
  {| _id := _id t; stix := {| id := i; properties := properties (stix t) |} |}.

Inductive Prog (R : Type) : Type :=
| Callback (err : option Err) (result : option R)
| Find (k : option Err -> option (list Technique) -> Prog R)
| FindById (stixId : string) (k : option Err -> option Technique -> Prog R)
| Uuid_v4 (k : string -> Prog R)
| Save (doc : Technique) (k : option Err -> option Technique -> Prog R).
Arguments Callback {R} err result.
Arguments Find {R} k.
Arguments FindById {R} stixId k.
Arguments Uuid_v4 {R} k.
Arguments Save {R} doc k.

Definition retrieveAll : Prog (list Technique) :=
  Find (fun err techniques =>
    match err with
    | Some err => Callback (Some err) None
    | None => Callback None techniques
    end).

Definition retrieveById (stixId : option string) : Prog Technique :=
  match stixId with
  | Some id_ =>
      if truthy stixId then
        FindById id_ (fun err technique =>
          match err with
          | Some err =>
              if String.eqb (name err) "CastError" then
                let error := new_Error errors.badlyFormattedParameter in
                let error := set_parameterName "stixId" error in
                Callback (Some error) None
              else
                Callback (Some err) None
          | None =>
              (* Note: document is null if not found *)
              match technique with
              | Some technique => Callback None (Some technique)
              | None => Callback None None
              end
          end)
      else
        let error := new_Error errors.missingParameter in
        let error := set_parameterName "stixId" error in
        Callback (Some error) None
  | None =>
      let error := new_Error errors.missingParameter in
      let error := set_parameterName "stixId" error in
      Callback (Some error) None
  end.

(** [err.code === 11000] *)
Definition code_is (n : Z) (e : Err) : bool :=
  match code e with
  | Some c => Z.eqb c n
  | None => false
  end.

Section Create.

(** [new Technique(data)]: the document the model builds from the data of a
    request. *)
Variable Data : Type.
Variable Technique_new : Data -> Technique.

Definition create (data : Data) : Prog Technique :=
  (* Create the document *)
  let technique := Technique_new data in
  Uuid_v4 (fun uuid =>
    let technique := set_id ("attack-pattern--" ++ uuid) technique in
    let technique := set_stix_id (_id technique) technique in
    (* Save the document in the database *)
    Save technique (fun err savedTechnique =>
      match err with
      | Some err =>
          if String.eqb (name err) "MongoError" && code_is 11000 err then
            (* 11000 = Duplicate index *)
            let error := new_Error errors.duplicateId in
            Callback (Some error) None
          else
            Callback (Some err) None
      | None => Callback None savedTechnique
      end)).

End Create.

(** A driver answers the calls, from a state of its own. *)
Record Driver (S : Type) := {
  find : S -> option Err * option (list Technique);
  findById : string -> S -> option Err * option Technique;
  uuid_v4 : S -> string * S;
  save : Technique -> S -> (option Err * option Technique) * S
}.
Arguments find {S} d s.
Arguments findById {S} d stixId s.
Arguments uuid_v4 {S} d s.
Arguments save {S} d doc s.

(** The calls made while a tree runs. *)
Inductive Op :=
| OpFind
| OpFindById (stixId : string)
| OpUuid_v4 (uuid : string)
| OpSave (doc : Technique).

(** Running a tree: the calls made, what [callback] was called with, and the
    state the driver is left in. *)
Fixpoint exec {S R : Type} (d : Driver S) (p : Prog R) (s : S)
  : list Op * (option Err * option R) * S :=
  match p with
  | Callback err result => ([], (err, result), s)
  | Find k =>
      let '(err, techniques) := find d s in
      let '(ops, args, s') := exec d (k err techniques) s in
      (OpFind :: ops, args, s')
  | FindById stixId k =>
      let '(err, technique) := findById d stixId s in
      let '(ops, args, s') := exec d (k err technique) s in
      (OpFindById stixId :: ops, args, s')
  | Uuid_v4 k =>
      let '(uuid, s1) := uuid_v4 d s in
      let '(ops, args, s') := exec d (k uuid) s1 in
      (OpUuid_v4 uuid :: ops, args, s')
  | Save doc k =>
      let '((err, saved), s1) := save d doc s in
      let '(ops, args, s') := exec d (k err saved) s1 in
      (OpSave doc :: ops, args, s')
  end.

(** A store in memory, to run the service on: documents by [_id], a counter
    for identifiers, and an index on [_id] that refuses duplicates. *)
Record Store := { docs : gmap string Technique; counter : nat }.

Definition memory : Driver Store :=
  {| find := fun s => (None, Some (map snd (map_to_list (docs s))));
     findById := fun i s => (None, docs s !! i);
     uuid_v4 := fun s =>
       (pretty (counter s), {| docs := docs s; counter := Datatypes.S (counter s) |});
     save := fun doc s =>
       match _id doc with
       | Some i =>
           match docs s !! i with
           | Some _ =>
               ((Some {| name := "MongoError"; message := "E11000 duplicate key error";
                         code := Some 11000%Z; parameterName := None |}, None), s)
           | None =>
               ((None, Some doc), {| docs := <[i := doc]> (docs s); counter := counter s |})
           end
       | None =>
           ((Some {| name := "ValidationError"; message := "document must have an _id";
                     code := None; parameterName := None |}, None), s)
       end |}.

(** A driver keeps what it saved: a successful save returns the document
    it was given, and the document is then found under its [_id]. *)
Definition keeps_saved {S : Type} (d : Driver S) : Prop :=
  forall doc s s' saved,
    save d doc s = ((None, Some saved), s') ->
    saved = doc /\ forall i, _id doc = Some i -> findById d i s' = (None, Some doc).

(** A driver whose [findById] cannot cast [bad] to an identifier. *)
Definition picky (bad : string) : Driver Store :=
  {| find := find memory;
     findById := fun i s =>
       if String.eqb i bad then
         (Some {| name := "CastError"; message := "Cast to ObjectId failed";
                  code := None; parameterName := None |}, None)
       else findById memory i s;
     uuid_v4 := uuid_v4 memory;
     save := save memory |}.

End TechniqueService.

(** ** [app/index.js] *)
Module Index.

(** The middleware the application mounts. *)
Inductive Middleware :=
| cors
| compression
| helmet
| morgan (format : string)
| swaggerUi_serve
| swaggerUi_setup (openApiDoc : string)
| express_static (root : string)
| routes.

(** What the application mounts: a path and a handler given to [app.use]. *)
Record Layer := { mountpath : string; handle : Middleware }.

(** [config.app.env] and [config.openApi.specPath]. *)
Record AppConfig := { env : string; specPath : string }.

(** What the application keeps under a setting: the configuration or the
    logger. *)
Inductive Setting := the_config (config : AppConfig) | the_logger.

(** The application object: the layers in the order they were added, and
    the settings. *)
Record Express := { stack : list Layer; settings : gmap string Setting }.

(** The process: the module variable [app] (with the object it refers to)
    and the lines given to [logger.info]. *)
Record Process := { app : option Express; logged : list string }.

Definition Init (A : Type) : Type := Process -> Result A * Process.

Definition iret {A} (a : A) : Init A := fun p => (Return a, p).
Definition ibind {A B} (m : Init A) (k : A -> Init B) : Init B :=
  fun p =>
    match m p with
    | (Return a, p') => k a p'
    | (Throw e, p') => (Throw e, p')
    end.

Declare Scope init_scope.
Delimit Scope init_scope with init.
Notation "x <- m ;; k" := (ibind m (fun x => k))
  (at level 100, m at next level, right associativity) : init_scope.
Local Open Scope init_scope.

Definition logger_info (line : string) : Init unit :=
  fun p => (Return tt, {| app := app p; logged := (logged p ++ [line])%list |}).

(** [app = express()] *)
Definition new_app : Init unit :=
  fun p => (Return tt, {| app := Some {| stack := []; settings := ∅ |};
                          logged := logged p |}).

Definition update_app (f : Express -> Express) : Init unit :=
  fun p => (Return tt, {| app := option_map f (app p); logged := logged p |}).

(** [app.use(path, handler, ...)] adds the handlers, in order, under the
    path. *)
Definition app_use (path : string) (handlers : list Middleware) : Init unit :=
  update_app (fun a =>
    {| stack := (stack a ++ map (fun h => {| mountpath := path; handle := h |}) handlers)%list;
       settings := settings a |}).

(** [app.set(name, value)] *)
Definition app_set (key : string) (val : Setting) : Init unit :=
  update_app (fun a =>
    {| stack := stack a; settings := <[key := val]> (settings a) |}).

(** [await promise] *)
Definition await {A} (promise : Result A) : Init A := fun p => (promise, p).

(** The application the module variable refers to (it has been assigned
    when [initializeApp] reads it at its end). *)
Definition the_app : Init Express :=
  fun p =>
    match app p with
    | Some a => (Return a, p)
    | None => (Throw (Error "app is not defined"), p)
    end.

(** [bundle] is [refParser.bundle]: the promise of the bundled document of a
    path, fulfilled or rejected. A call is taken to run to its end before
    the next one starts. *)
Definition initializeApp (config : AppConfig) (bundle : string -> Result string)
  : Init Express :=
  fun p =>
    (* Only set up the express app once *)
    match app p with
    | Some a => (Return a, p)
    | None =>
        (_ <- logger_info "ATT&CK Workbench REST API app starting" ;;
         (* Configure the app *)
         _ <- logger_info "Configuring the app" ;;
         (* Create the express application *)
         _ <- logger_info "Starting express" ;;
         _ <- new_app ;;
         (* Allow CORS *)
         _ <- app_use "/" [cors] ;;
         (* Compress response bodies *)
         _ <- app_use "/" [compression] ;;
         (* Set HTTP response headers *)
         _ <- app_use "/" [helmet] ;;
         (* Development Environment *)
         _ <- (if String.eqb (env config) "development" then
                 (* Enable request logging *)
                 _ <- logger_info "Enabling HTTP request logging" ;;
                 _ <- app_use "/" [morgan "dev"] ;;
                 (* Enable Swagger UI *)
                 _ <- logger_info "Enabling Swagger UI" ;;
                 openApiDoc <- await (bundle (specPath config)) ;;
                 app_use "/api-docs" [swaggerUi_serve; swaggerUi_setup openApiDoc]
               else iret tt) ;;
         (* Set up the static routes *)
         _ <- logger_info "Configuring static routes" ;;
         _ <- app_use "/" [express_static "public"] ;;
         (* Set up the api routes *)
         _ <- logger_info "Configuring REST API routes" ;;
         _ <- app_use "/" [routes] ;;
         (* Make the config and logger accessible from the app *)
         _ <- app_set "config" (the_config config) ;;
         _ <- app_set "logger" the_logger ;;
         the_app) p
    end.

(** Whether an application serves the API routes. *)
Definition serves_routes (a : Express) : bool :=
  existsb (fun l => match handle l with routes => true | _ => false end) (stack a).

Definition fresh : Process := {| app := None; logged := [] |}.

(** Layers mounted at the root. *)
Definition at_root (handlers : list Middleware) : list Layer :=
  map (fun h => {| mountpath := "/"; handle := h |}) handlers.

(** The layers of the development environment, for a bundled document. *)
Definition development_layers (openApiDoc : string) : list Layer :=
  [ {| mountpath := "/"; handle := morgan "dev" |};
    {| mountpath := "/api-docs"; handle := swaggerUi_serve |};
    {| mountpath := "/api-docs"; handle := swaggerUi_setup openApiDoc |} ].

(** The application with the layers [middle] between the first layers and
    the last ones, and the settings of a configuration. *)
Definition built (config : AppConfig) (middle : list Layer) : Express :=
  {| stack := (at_root [cors; compression; helmet] ++ middle
               ++ at_root [express_static "public"; routes])%list;
     settings := <["logger" := the_logger]> (<["config" := the_config config]> ∅) |}.

End Index.

(** Samples to run the technique service and the application on. *)
Module Samples.

Import TechniqueService.

(** Data that comes with identifiers of its own. *)
Definition data0 : Technique :=
  {| _id := Some "chosen-by-the-client";
     stix := {| id := Some "attack-pattern--1234"; properties := [("name", "Phishing")] |} |}.

Definition empty_store : Store := {| docs := ∅; counter := 0 |}.

(** A store where the identifier that comes next is taken. *)
Definition taken_store : Store :=
  {| docs := {[ "attack-pattern--0" := data0 ]}; counter := 0 |}.

Definition production : Index.AppConfig :=
  {| Index.env := "production"; Index.specPath := "./app/api/definitions/openapi.yml" |}.

Definition development : Index.AppConfig :=
  {| Index.env := "development"; Index.specPath := "./app/api/definitions/openapi.yml" |}.

(** The environment spelled with a capital. *)
Definition capitalised : Index.AppConfig :=
  {| Index.env := "Development"; Index.specPath := "./app/api/definitions/openapi.yml" |}.

Definition bundle_ok (path : string) : Result string := Return ("bundle of " ++ path).
Definition bundle_broken (path : string) : Result string :=
  Throw (Error ("Error opening file " ++ path)).

End Samples.
(** * Properties *)

(** ** The library models agree with published test vectors *)

Example sha256_abc :
  Hex.encode (Sha256.hash (bytes_of_string "abc"))
  = "ba7816bf8f01cfea414140de5dae2223b00361a396177a9cb410ff61f20015ad".
Proof. vm_compute. reflexivity. Qed.

Example hmac_rfc4231_2 :
  hmac_sha256_hex "Jefe" "what do ya want for nothing?"
  = "5bdcc146bf60754e6a042426089575c75a003f089d2739839dec58b964ec3843".
Proof. vm_compute. reflexivity. Qed.

Example hmac_long_key :
  hmac_sha256_hex
    "kkkkkkkkkkkkkkkkkkkkkkkkkkkkkkkkkkkkkkkkkkkkkkkkkkkkkkkkkkkkkkkkkkkkkk" "data"
  = "79a09ff0cd897a77c3b01e50a8f98895087c4e97c927cbe5450b5138e2732dd5".
Proof. vm_compute. reflexivity. Qed.

Example base64_48 :
  Base64.encode (map byte_of_N (map N.of_nat (seq 0 48)))
  = "AAECAwQFBgcICQoLDA0ODxAREhMUFRYXGBkaGxwdHh8gISIjJCUmJygpKissLS4v".
Proof. vm_compute. reflexivity. Qed.

Example base64_pad :
  Base64.encode (bytes_of_string "ab") = "YWI=" /\ Base64.encode (bytes_of_string "a") = "YQ==".
Proof. vm_compute. split; reflexivity. Qed.

Example hs256_scenario_token :
  HS256.sign 1700000005123%Z
    {| serviceName := "svc-A"; exp := 1700000305%Z |} "signing-secret"
  = "eyJhbGciOiJIUzI1NiIsInR5cCI6IkpXVCJ9"
    ++ ".eyJzZXJ2aWNlTmFtZSI6InN2Yy1BIiwiZXhwIjoxNzAwMDAwMzA1LCJpYXQiOjE3MDAwMDAwMDV9"
    ++ ".E4ufu8FhLBhRJ9_WOnBxJXJsxr5W96-rB1ACULpn4J4".
Proof. vm_compute. reflexivity. Qed.

(** ** The challenge cache *)

Lemma world_eta (w : World) : {| cache := cache w; entropy := entropy w |} = w.
Proof. destruct w; reflexivity. Qed.

(** What [take] returns, and the world it leaves: the key is gone in every
    case. *)
Lemma take_unfold (now : Z) (key : string) (w : World) :
  NodeCache.take now key w =
    (Return match cache w !! key with
            | Some slot => if (deadline slot <? now)%Z then None else Some (value slot)
            | None => None
            end,
     {| cache := delete key (cache w); entropy := entropy w |}).
Proof.
  unfold NodeCache.take, NodeCache.get, NodeCache.del, bind, ret.
  destruct (cache w !! key) as [slot|] eqn:Hk.
  - destruct (deadline slot <? now)%Z; reflexivity.
  - rewrite (delete_id _ _ Hk), world_eta. reflexivity.
Qed.

Lemma take_removes (now : Z) (key : string) (w : World) :
  cache (snd (NodeCache.take now key w)) !! key = None.
Proof. rewrite take_unfold. simpl. apply lookup_delete_eq. Qed.

Lemma take_other (now : Z) (key k : string) (w : World) :
  key ≠ k -> cache (snd (NodeCache.take now key w)) !! k = cache w !! k.
Proof. intros Hne. rewrite take_unfold. simpl. by apply lookup_delete_ne. Qed.

(** ** Redemption *)


Lemma createToken_unfold (jwt_sign : Signer) (config : Config) (now : Z)
  (name hash : string) (w : World) :
  createToken jwt_sign config now name hash w =
    (match live now name w with
     | None => Throw (Error errors.challengeNotFound)
     | Some c =>
         if String.eqb (expected c) hash
         then Return (issued jwt_sign config now name)
         else Throw (Error errors.invalidChallengeHash)
     end,
     consumed name w).
Proof.
  unfold createToken, bind. rewrite take_unfold. fold (live now name w).
  destruct (live now name w) as [[c k]|]; [|reflexivity].
  unfold expected; simpl challenge; simpl apikey.
  destruct (String.eqb (hmac_sha256_hex k c) hash); reflexivity.
Qed.

Lemma live_consumed (now : Z) (name : string) (w : World) :
  live now name (consumed name w) = None.
Proof. unfold live, consumed. simpl. by rewrite lookup_delete_eq. Qed.

Lemma live_slot (now : Z) (name : string) (w : World) (slot : Slot) :
  cache w !! name = Some slot -> (now <= deadline slot)%Z ->
  live now name w = Some (value slot).
Proof.
  intros Hk Hd. unfold live. rewrite Hk.
  destruct (Z.ltb_spec (deadline slot) now); [lia | reflexivity].
Qed.

(** A service with no slot gets [challengeNotFound], whatever it presents. *)
Lemma createToken_absent (jwt_sign : Signer) (config : Config) (now : Z)
  (name hash : string) (w : World) :
  cache w !! name = None ->
  fst (createToken jwt_sign config now name hash w)
  = Throw (Error errors.challengeNotFound).
Proof. intros Hk. rewrite createToken_unfold. unfold live. by rewrite Hk. Qed.

(** C1. A redemption attempt consumes the cached challenge before the proof
    is checked. For a service with a cached challenge, [createToken] leaves
    no slot for the service, with the right proof and with a wrong one; the
    right proof is accepted and a wrong one fails with
    [invalidChallengeHash]; and whatever is presented next for the same
    service, at any later instant, fails with [challengeNotFound]. *)
Theorem createToken_single_use
  (jwt_sign : Signer) (config : Config) (now : Z) (name : string) (w : World)
  (slot : Slot) :
  cache w !! name = Some slot ->
  (now <= deadline slot)%Z ->
  forall hash : string,
    let attempt := createToken jwt_sign config now name hash w in
    cache (snd attempt) !! name = None
    /\ (hash = expected (value slot) ->
        fst attempt = Return (issued jwt_sign config now name))
    /\ (hash <> expected (value slot) ->
        fst attempt = Throw (Error errors.invalidChallengeHash))
    /\ (forall (jwt_sign' : Signer) (config' : Config) (now' : Z) (hash' : string),
          fst (createToken jwt_sign' config' now' name hash' (snd attempt))
          = Throw (Error errors.challengeNotFound)).
Proof.
  intros Hk Hd hash attempt. subst attempt.
  rewrite createToken_unfold, (live_slot _ _ _ _ Hk Hd). simpl fst; simpl snd.
  repeat split.
  - unfold consumed; simpl. apply lookup_delete_eq.
  - intros ->. by rewrite String.eqb_refl.
  - intros Hne. destruct (String.eqb_spec (expected (value slot)) hash); congruence.
  - intros. apply createToken_absent. unfold consumed; simpl. apply lookup_delete_eq.
Qed.

Lemma createToken_single_use_witness :
  cache Scenario.world1 !! "svc-A" = Some Scenario.slot1
  /\ (Scenario.t0 + 1000 <= deadline Scenario.slot1)%Z
  /\ forall hash : string,
       let attempt :=
         createToken HS256.sign Scenario.config (Scenario.t0 + 1000)%Z "svc-A" hash
           Scenario.world1 in
       cache (snd attempt) !! "svc-A" = None
       /\ (hash = expected (value Scenario.slot1) ->
           fst attempt
           = Return (issued HS256.sign Scenario.config (Scenario.t0 + 1000)%Z "svc-A"))
       /\ (hash <> expected (value Scenario.slot1) ->
           fst attempt = Throw (Error errors.invalidChallengeHash))
       /\ (forall (jwt_sign' : Signer) (config' : Config) (now' : Z) (hash' : string),
             fst (createToken jwt_sign' config' now' "svc-A" hash' (snd attempt))
             = Throw (Error errors.challengeNotFound)).
Proof.
  assert (Hk : cache Scenario.world1 !! "svc-A" = Some Scenario.slot1)
    by (vm_compute; reflexivity).
  assert (Hd : (Scenario.t0 + 1000 <= deadline Scenario.slot1)%Z)
    by (vm_compute; discriminate).
  exact (conj Hk (conj Hd
           (createToken_single_use HS256.sign Scenario.config (Scenario.t0 + 1000)%Z
              "svc-A" Scenario.world1 Scenario.slot1 Hk Hd))).
Defined.

(** C3. With a challenge cached for the service, [createToken] succeeds if
    and only if the hash presented is the hex HMAC-SHA-256 digest of the
    stored challenge under the stored apikey; any other hash fails with
    [invalidChallengeHash]. *)
Theorem createToken_accepts_exactly_the_digest
  (jwt_sign : Signer) (config : Config) (now : Z) (name hash : string) (w : World)
  (slot : Slot) :
  cache w !! name = Some slot ->
  (now <= deadline slot)%Z ->
  ((exists resp, fst (createToken jwt_sign config now name hash w) = Return resp)
   <-> hash = hmac_sha256_hex (apikey (value slot)) (challenge (value slot)))
  /\ (hash <> hmac_sha256_hex (apikey (value slot)) (challenge (value slot)) ->
      fst (createToken jwt_sign config now name hash w)
      = Throw (Error errors.invalidChallengeHash)).
Proof.
  intros Hk Hd.
  rewrite createToken_unfold, (live_slot _ _ _ _ Hk Hd). simpl fst. unfold expected.
  destruct (String.eqb_spec (hmac_sha256_hex (apikey (value slot)) (challenge (value slot))) hash)
    as [Heq | Hne].
  - split; [split; eauto | congruence].
  - split; [split | reflexivity].
    + intros [resp Hr]. discriminate.
    + congruence.
Qed.

Lemma createToken_accepts_exactly_the_digest_witness :
  cache Scenario.world1 !! "svc-A" = Some Scenario.slot1
  /\ (Scenario.t0 + 1000 <= deadline Scenario.slot1)%Z
  /\ ((exists resp,
          fst (createToken HS256.sign Scenario.config (Scenario.t0 + 1000)%Z "svc-A"
                 Scenario.proof0 Scenario.world1) = Return resp)
      <-> Scenario.proof0
          = hmac_sha256_hex (apikey (value Scenario.slot1)) (challenge (value Scenario.slot1)))
  /\ (Scenario.proof0
      <> hmac_sha256_hex (apikey (value Scenario.slot1)) (challenge (value Scenario.slot1)) ->
      fst (createToken HS256.sign Scenario.config (Scenario.t0 + 1000)%Z "svc-A"
             Scenario.proof0 Scenario.world1)
      = Throw (Error errors.invalidChallengeHash)).
Proof.
  assert (Hk : cache Scenario.world1 !! "svc-A" = Some Scenario.slot1)
    by (vm_compute; reflexivity).
  assert (Hd : (Scenario.t0 + 1000 <= deadline Scenario.slot1)%Z)
    by (vm_compute; discriminate).
  exact (conj Hk (conj Hd
           (createToken_accepts_exactly_the_digest HS256.sign Scenario.config
              (Scenario.t0 + 1000)%Z "svc-A" Scenario.proof0 Scenario.world1
              Scenario.slot1 Hk Hd))).
Defined.

(** C4. A successful redemption returns the pair of a token and
    [expiresIn]: [expiresIn] is the configured token timeout, and the token
    is what the signer makes, under the configured signing secret, of the
    payload naming the service and expiring at the current time (in seconds)
    plus that timeout. *)
Theorem createToken_response
  (jwt_sign : Signer) (config : Config) (now : Z) (name hash : string) (w : World)
  (slot : Slot) :
  cache w !! name = Some slot ->
  (now <= deadline slot)%Z ->
  hash = hmac_sha256_hex (apikey (value slot)) (challenge (value slot)) ->
  let timeout := Apikey.tokenTimeout (ServiceAuthn.apikey (serviceAuthn config)) in
  let secret := Apikey.secret (ServiceAuthn.apikey (serviceAuthn config)) in
  fst (createToken jwt_sign config now name hash w)
  = Return {| token :=
                jwt_sign now {| serviceName := name; exp := (now / 1000 + timeout)%Z |} secret;
              expiresIn := timeout |}.
Proof.
  intros Hk Hd -> timeout secret.
  rewrite createToken_unfold, (live_slot _ _ _ _ Hk Hd). simpl fst. unfold expected.
  rewrite String.eqb_refl. reflexivity.
Qed.

Lemma createToken_response_witness :
  cache Scenario.world1 !! "svc-A" = Some Scenario.slot1
  /\ (Scenario.t0 + 5000 <= deadline Scenario.slot1)%Z
  /\ Scenario.proof0
     = hmac_sha256_hex (apikey (value Scenario.slot1)) (challenge (value Scenario.slot1))
  /\ fst (createToken HS256.sign Scenario.config (Scenario.t0 + 5000)%Z "svc-A"
            Scenario.proof0 Scenario.world1)
     = Return {| token :=
                   HS256.sign (Scenario.t0 + 5000)%Z
                     {| serviceName := "svc-A";
                        exp := ((Scenario.t0 + 5000) / 1000 + 300)%Z |}
                     "signing-secret";
                 expiresIn := 300 |}.
Proof.
  assert (Hk : cache Scenario.world1 !! "svc-A" = Some Scenario.slot1)
    by (vm_compute; reflexivity).
  assert (Hd : (Scenario.t0 + 5000 <= deadline Scenario.slot1)%Z)
    by (vm_compute; discriminate).
  assert (Hp : Scenario.proof0
               = hmac_sha256_hex (apikey (value Scenario.slot1))
                   (challenge (value Scenario.slot1)))
    by (vm_compute; reflexivity).
  exact (conj Hk (conj Hd (conj Hp
           (createToken_response HS256.sign Scenario.config (Scenario.t0 + 5000)%Z
              "svc-A" Scenario.proof0 Scenario.world1 Scenario.slot1 Hk Hd Hp)))).
Defined.

(** ** Issuance *)

Lemma generateNonce_unfold (w : World) :
  generateNonce w =
    (Return (Base64.encode (next_bytes 48 (entropy w))),
     {| cache := cache w; entropy := advance 48 (entropy w) |}).
Proof. reflexivity. Qed.

Lemma createChallenge_registered (config : Config) (now : Z) (name : string)
  (w : World) (service : ServiceAccount.t) :
  account_of config name = Some service ->
  createChallenge config now name w =
    (Return (Base64.encode (next_bytes 48 (entropy w))),
     {| cache :=
          <[name := {| value := {| challenge := Base64.encode (next_bytes 48 (entropy w));
                                   apikey := ServiceAccount.apikey service |};
                       deadline := now + 60 * 1000 |}]> (cache w);
        entropy := advance 48 (entropy w) |}).
Proof.
  intros Hs. unfold createChallenge. fold (accounts config). fold (account_of config name).
  rewrite Hs. reflexivity.
Qed.

Lemma account_of_none (config : Config) (name : string) :
  (forall s, In s (accounts config) -> ServiceAccount.name s <> name) ->
  account_of config name = None.
Proof.
  intros Hall. unfold account_of.
  destruct (find _ (accounts config)) as [s|] eqn:Hf; [|reflexivity].
  apply find_some in Hf as [Hin Heq]. apply String.eqb_eq in Heq.
  exfalso. exact (Hall s Hin Heq).
Qed.

(** C5. For a name that is not, letter for letter, the name of a configured
    service account, [createChallenge] throws [serviceNotFound] and leaves
    the world (the cache, and the random source too) as it was. *)
Theorem createChallenge_unregistered
  (config : Config) (now : Z) (name : string) (w : World) :
  (forall s, In s (Apikey.serviceAccounts (ServiceAuthn.apikey (serviceAuthn config))) ->
             ServiceAccount.name s <> name) ->
  createChallenge config now name w = (Throw (Error errors.serviceNotFound), w).
Proof.
  intros Hall. unfold createChallenge.
  fold (accounts config). fold (account_of config name).
  rewrite (account_of_none _ _ Hall). reflexivity.
Qed.

Lemma createChallenge_unregistered_witness :
  (forall s, In s (Apikey.serviceAccounts
                     (ServiceAuthn.apikey (serviceAuthn Scenario.config))) ->
             ServiceAccount.name s <> "SVC-A")
  /\ createChallenge Scenario.config Scenario.t0 "SVC-A" Scenario.world1
     = (Throw (Error errors.serviceNotFound), Scenario.world1).
Proof.
  assert (H : forall s, In s (Apikey.serviceAccounts
                                (ServiceAuthn.apikey (serviceAuthn Scenario.config))) ->
                        ServiceAccount.name s <> "SVC-A").
  { intros s [<- | []]. simpl. discriminate. }
  exact (conj H (createChallenge_unregistered Scenario.config Scenario.t0 "SVC-A"
                   Scenario.world1 H)).
Defined.

(** C6. [createChallenge] for a configured service stores, under the name of
    the service, the challenge it returns together with the apikey of the
    account, with a deadline 60 seconds ahead. The slot replaces whatever the
    name had before, the other names keep theirs, and from then on the only
    hash the service can redeem is the digest of the new challenge, up to the
    deadline. *)
Theorem createChallenge_overwrites
  (config : Config) (now : Z) (name : string) (w : World) (service : ServiceAccount.t) :
  find (fun s => String.eqb (ServiceAccount.name s) name)
       (Apikey.serviceAccounts (ServiceAuthn.apikey (serviceAuthn config)))
  = Some service ->
  exists (nonce : string) (w' : World),
    createChallenge config now name w = (Return nonce, w')
    /\ cache w' !! name
       = Some {| value := {| challenge := nonce; apikey := ServiceAccount.apikey service |};
                 deadline := now + 60 * 1000 |}
    /\ (forall k, k <> name -> cache w' !! k = cache w !! k)
    /\ (forall (now' : Z) (c : CachedValue),
          live now' name w' = Some c <->
          (now' <= now + 60 * 1000)%Z
          /\ c = {| challenge := nonce; apikey := ServiceAccount.apikey service |})
    /\ (forall (jwt_sign : Signer) (config' : Config) (now' : Z) (hash : string),
          (exists resp, fst (createToken jwt_sign config' now' name hash w') = Return resp)
          <-> (now' <= now + 60 * 1000)%Z
              /\ hash = hmac_sha256_hex (ServiceAccount.apikey service) nonce).
Proof.
  intros Hs. eexists _, _. split; [exact (createChallenge_registered _ _ _ _ _ Hs)|].
  simpl cache. split; [apply lookup_insert_eq|]. split; [|split].
  - intros k Hne. by apply lookup_insert_ne.
  - intros now' c. unfold live. simpl cache. rewrite lookup_insert_eq. cbn [deadline value].
    destruct (Z.ltb_spec (now + 60 * 1000) now') as [Hlate | Hlive].
    + split; [discriminate | lia].
    + split; [intros [= <-]; split; [lia | reflexivity] | intros [_ ->]; reflexivity].
  - intros jwt_sign config' now' hash.
    rewrite createToken_unfold. simpl fst. unfold live. simpl cache.
    rewrite lookup_insert_eq. cbn [deadline value].
    destruct (Z.ltb_spec (now + 60 * 1000) now') as [Hlate | Hlive].
    + split; [intros [resp Hr]; discriminate | lia].
    + unfold expected. cbn [apikey challenge].
      destruct (String.eqb_spec
                  (hmac_sha256_hex (ServiceAccount.apikey service)
                     (Base64.encode (next_bytes 48 (entropy w)))) hash) as [Heq | Hne].
      * split; [intros _; split; [lia | congruence] | intros _; eexists; reflexivity].
      * split; [intros [resp Hr]; discriminate | intros [_ Heq]; congruence].
Qed.

Lemma createChallenge_overwrites_witness :
  find (fun s => String.eqb (ServiceAccount.name s) "svc-A")
       (Apikey.serviceAccounts (ServiceAuthn.apikey (serviceAuthn Scenario.config)))
  = Some {| ServiceAccount.name := "svc-A"; ServiceAccount.apikey := "k1" |}
  /\ exists (nonce : string) (w' : World),
       createChallenge Scenario.config (Scenario.t0 + 2000)%Z "svc-A" Scenario.world1
       = (Return nonce, w')
       /\ cache w' !! "svc-A"
          = Some {| value := {| challenge := nonce; apikey := "k1" |};
                    deadline := Scenario.t0 + 2000 + 60 * 1000 |}
       /\ (forall k, k <> "svc-A" -> cache w' !! k = cache Scenario.world1 !! k)
       /\ (forall (now' : Z) (c : CachedValue),
             live now' "svc-A" w' = Some c <->
             (now' <= Scenario.t0 + 2000 + 60 * 1000)%Z
             /\ c = {| challenge := nonce; apikey := "k1" |})
       /\ (forall (jwt_sign : Signer) (config' : Config) (now' : Z) (hash : string),
             (exists resp,
                 fst (createToken jwt_sign config' now' "svc-A" hash w') = Return resp)
             <-> (now' <= Scenario.t0 + 2000 + 60 * 1000)%Z
                 /\ hash = hmac_sha256_hex "k1" nonce).
Proof.
  assert (H : find (fun s => String.eqb (ServiceAccount.name s) "svc-A")
                (Apikey.serviceAccounts
                   (ServiceAuthn.apikey (serviceAuthn Scenario.config)))
              = Some {| ServiceAccount.name := "svc-A"; ServiceAccount.apikey := "k1" |})
    by reflexivity.
  exact (conj H (createChallenge_overwrites Scenario.config (Scenario.t0 + 2000)%Z "svc-A"
                   Scenario.world1 _ H)).
Defined.

Lemma createChallenge_returns (config : Config) (now : Z) (name : string)
  (w w' : World) (nonce : string) :
  createChallenge config now name w = (Return nonce, w') ->
  exists service, account_of config name = Some service.
Proof.
  unfold createChallenge. fold (accounts config). fold (account_of config name).
  destruct (account_of config name) as [service|]; [eauto | discriminate].
Qed.

(** C10. [createToken] does not read the registry of service accounts: under
    two configurations with the same signing secret and token timeout it
    returns the same result and leaves the same world, whatever their service
    accounts are. So a challenge issued while the service was configured is
    still redeemed, within its 60 seconds, under a configuration from which
    the service has been removed. *)
Theorem createToken_ignores_registry
  (jwt_sign : Signer) (config1 config2 : Config) (now : Z) (name : string) (w : World) :
  Apikey.secret (ServiceAuthn.apikey (serviceAuthn config1))
  = Apikey.secret (ServiceAuthn.apikey (serviceAuthn config2)) ->
  Apikey.tokenTimeout (ServiceAuthn.apikey (serviceAuthn config1))
  = Apikey.tokenTimeout (ServiceAuthn.apikey (serviceAuthn config2)) ->
  (forall hash : string,
      createToken jwt_sign config1 now name hash w
      = createToken jwt_sign config2 now name hash w)
  /\ (forall (issued_at : Z) (w0 : World) (nonce : string),
        createChallenge config1 issued_at name w0 = (Return nonce, w) ->
        (now <= issued_at + 60 * 1000)%Z ->
        exists service,
          account_of config1 name = Some service
          /\ fst (createToken jwt_sign config2 now name
                    (hmac_sha256_hex (ServiceAccount.apikey service) nonce) w)
             = Return (issued jwt_sign config2 now name)).
Proof.
  intros Hsecret Htimeout. split.
  - intros hash. rewrite !createToken_unfold. unfold issued.
    rewrite Hsecret, Htimeout. reflexivity.
  - intros issued_at w0 nonce Hc Hnow.
    destruct (createChallenge_returns _ _ _ _ _ _ Hc) as [service Hs].
    exists service. split; [exact Hs|].
    rewrite (createChallenge_registered _ _ _ _ _ Hs) in Hc.
    injection Hc as <- <-.
    rewrite createToken_unfold. simpl fst.
    erewrite live_slot; [| simpl; apply lookup_insert_eq | simpl; lia].
    unfold expected. cbn [value apikey challenge].
    rewrite String.eqb_refl. reflexivity.
Qed.

Lemma createToken_ignores_registry_witness :
  Apikey.secret (ServiceAuthn.apikey (serviceAuthn Scenario.config))
  = Apikey.secret (ServiceAuthn.apikey (serviceAuthn Scenario.config_no_accounts))
  /\ Apikey.tokenTimeout (ServiceAuthn.apikey (serviceAuthn Scenario.config))
     = Apikey.tokenTimeout (ServiceAuthn.apikey (serviceAuthn Scenario.config_no_accounts))
  /\ createChallenge Scenario.config Scenario.t0 "svc-A" Scenario.world0
     = (Return Scenario.nonce0, Scenario.world1)
  /\ (Scenario.t0 + 59000 <= Scenario.t0 + 60 * 1000)%Z
  /\ exists service,
       account_of Scenario.config "svc-A" = Some service
       /\ fst (createToken HS256.sign Scenario.config_no_accounts (Scenario.t0 + 59000)%Z
                 "svc-A" (hmac_sha256_hex (ServiceAccount.apikey service) Scenario.nonce0)
                 Scenario.world1)
          = Return (issued HS256.sign Scenario.config_no_accounts
                      (Scenario.t0 + 59000)%Z "svc-A").
Proof.
  assert (Hs : Apikey.secret (ServiceAuthn.apikey (serviceAuthn Scenario.config))
               = Apikey.secret
                   (ServiceAuthn.apikey (serviceAuthn Scenario.config_no_accounts)))
    by reflexivity.
  assert (Ht : Apikey.tokenTimeout (ServiceAuthn.apikey (serviceAuthn Scenario.config))
               = Apikey.tokenTimeout
                   (ServiceAuthn.apikey (serviceAuthn Scenario.config_no_accounts)))
    by reflexivity.
  assert (Hc : createChallenge Scenario.config Scenario.t0 "svc-A" Scenario.world0
               = (Return Scenario.nonce0, Scenario.world1)).
  { rewrite (createChallenge_registered Scenario.config Scenario.t0 "svc-A" Scenario.world0
               {| ServiceAccount.name := "svc-A"; ServiceAccount.apikey := "k1" |}
               eq_refl).
    unfold Scenario.world1.
    rewrite (createChallenge_registered Scenario.config Scenario.t0 "svc-A" Scenario.world0
               {| ServiceAccount.name := "svc-A"; ServiceAccount.apikey := "k1" |}
               eq_refl).
    simpl snd. f_equal. }
  assert (Hn : (Scenario.t0 + 59000 <= Scenario.t0 + 60 * 1000)%Z) by lia.
  exact (conj Hs (conj Ht (conj Hc (conj Hn
           (proj2 (createToken_ignores_registry HS256.sign Scenario.config
                     Scenario.config_no_accounts (Scenario.t0 + 59000)%Z "svc-A"
                     Scenario.world1 Hs Ht)
              Scenario.t0 Scenario.world0 Scenario.nonce0 Hc Hn))))).
Defined.

(** ** The base64 text of a buffer *)

Lemma list_ind3 {A : Type} (P : list A -> Prop) :
  P [] ->
  (forall a, P [a]) ->
  (forall a b, P [a; b]) ->
  (forall a b c l, P l -> P (a :: b :: c :: l)) ->
  forall l, P l.
Proof.
  intros H0 H1 H2 H3. fix IH 1.
  intros [|a [|b [|c l]]]; [exact H0 | exact (H1 a) | exact (H2 a b) | exact (H3 a b c l (IH l))].
Qed.

Lemma base64_index_of_char_of (i : N) :
  (i < 64)%N -> Base64.index_of (Base64.char_of i) = Some i.
Proof.
  intros Hi.
  assert (Hall : forallb (fun n => match Base64.index_of (Base64.char_of n) with
                                   | Some j => N.eqb j n
                                   | None => false
                                   end) (map N.of_nat (seq 0 64)) = true)
    by (vm_compute; reflexivity).
  rewrite forallb_forall in Hall.
  specialize (Hall i).
  destruct (Base64.index_of (Base64.char_of i)) as [j|].
  - f_equal. apply N.eqb_eq, Hall.
    apply in_map_iff. exists (N.to_nat i). split; [lia | apply in_seq; lia].
  - discriminate Hall.
    apply in_map_iff. exists (N.to_nat i). split; [lia | apply in_seq; lia].
Qed.

Lemma base64_char_of_inj (i j : N) :
  (i < 64)%N -> (j < 64)%N -> Base64.char_of i = Base64.char_of j -> i = j.
Proof.
  intros Hi Hj Heq.
  pose proof (base64_index_of_char_of i Hi) as H1.
  pose proof (base64_index_of_char_of j Hj) as H2.
  rewrite Heq in H1. congruence.
Qed.

Lemma base64_char_of_not_pad (i : N) :
  (i < 64)%N -> Base64.char_of i <> Base64.pad.
Proof.
  intros Hi Heq. pose proof (base64_index_of_char_of i Hi) as H1.
  rewrite Heq in H1. discriminate H1.
Qed.

Lemma octets_to_N (buf : Buffer) : octets (map Byte.to_N buf).
Proof.
  unfold octets. induction buf as [|b buf IH]; simpl; constructor; [|exact IH].
  pose proof (Byte.to_N_bounded b). lia.
Qed.

Lemma to_N_map_inj (b1 b2 : Buffer) :
  map Byte.to_N b1 = map Byte.to_N b2 -> b1 = b2.
Proof.
  revert b2. induction b1 as [|x b1 IH]; intros [|y b2] H; try discriminate; [reflexivity|].
  simpl in H. injection H as Hxy Hrest. f_equal; [|by apply IH].
  pose proof (Byte.of_to_N x) as Hx. pose proof (Byte.of_to_N y) as Hy.
  rewrite Hxy in Hx. congruence.
Qed.

Lemma base64_sextets_bounded (a b c : N) :
  (a < 256)%N -> (b < 256)%N -> (c < 256)%N ->
  let '(s0, s1, s2, s3) := Base64.sextets a b c in
  (s0 < 64 /\ s1 < 64 /\ s2 < 64 /\ s3 < 64)%N.
Proof.
  intros Ha Hb Hc. unfold Base64.sextets.
  euclid a 4%N. euclid b 16%N. euclid c 64%N. lia.
Qed.

Lemma base64_sextets_inj (a b c a' b' c' : N) :
  (a < 256)%N -> (b < 256)%N -> (c < 256)%N ->
  (a' < 256)%N -> (b' < 256)%N -> (c' < 256)%N ->
  Base64.sextets a b c = Base64.sextets a' b' c' ->
  a = a' /\ b = b' /\ c = c'.
Proof.
  intros Ha Hb Hc Ha' Hb' Hc'. unfold Base64.sextets.
  intros H. injection H as H0 H1 H2 H3.
  euclid a 4%N. euclid b 16%N. euclid c 64%N.
  euclid a' 4%N. euclid b' 16%N. euclid c' 64%N. lia.
Qed.

Lemma base64_encode_N_inj (l1 : list N) :
  forall l2, octets l1 -> octets l2 ->
             Base64.encode_N l1 = Base64.encode_N l2 -> l1 = l2.
Proof.
  unfold octets.
  induction l1 as [|a|a b|a b c l1 IH] using list_ind3;
    intros [|a' [|b' [|c' l2]]] O1 O2 H;
    try reflexivity; try discriminate H;
    repeat match goal with
           | O : Forall _ (_ :: _) |- _ => inversion O; clear O; subst
           end;
    cbn [Base64.encode_N Base64.sextets] in H;
    injection H; clear H; intros;
    repeat match goal with
           | E : Base64.char_of ?x = Base64.pad |- _ =>
               exfalso; apply (base64_char_of_not_pad x); [sextet_arith | exact E]
           | E : Base64.pad = Base64.char_of ?x |- _ =>
               exfalso; apply (base64_char_of_not_pad x); [sextet_arith | symmetry; exact E]
           | E : Base64.char_of ?x = Base64.char_of ?y |- _ =>
               apply base64_char_of_inj in E; [ | sextet_arith | sextet_arith]
           end.
  - f_equal. sextet_arith.
  - assert (a = a' /\ b = b') as [-> ->] by sextet_arith. reflexivity.
  - assert (a = a' /\ b = b' /\ c = c') as (-> & -> & ->) by sextet_arith.
    do 3 f_equal. apply IH; assumption.
Qed.

Lemma base64_encode_inj (b1 b2 : Buffer) :
  Base64.encode b1 = Base64.encode b2 -> b1 = b2.
Proof.
  unfold Base64.encode. intros H.
  apply to_N_map_inj, base64_encode_N_inj; [apply octets_to_N | apply octets_to_N | exact H].
Qed.

Lemma base64_encode_N_length (l : list N) :
  String.length (Base64.encode_N l) = 4 * ((length l + 2) / 3).
Proof.
  induction l as [|a|a b|a b c l IH] using list_ind3; try reflexivity.
  cbn [Base64.encode_N Base64.sextets String.length length]. rewrite IH.
  replace (S (S (S (length l))) + 2) with (1 * 3 + (length l + 2)) by lia.
  rewrite Nat.div_add_l by lia. lia.
Qed.

Lemma base64_encode_length (buf : Buffer) :
  String.length (Base64.encode buf) = 4 * ((length buf + 2) / 3).
Proof. unfold Base64.encode. rewrite base64_encode_N_length, length_map. reflexivity. Qed.

Lemma next_bytes_length (size : nat) (e : Entropy) : length (next_bytes size e) = size.
Proof. unfold next_bytes. by rewrite length_map, length_seq. Qed.

(** C8. [generateNonce] takes exactly 48 octets from the random source and
    returns their base64 text. The text of a buffer determines the buffer
    (the encoding is injective), so: [createChallenge] for a configured
    service returns a string of 64 characters, and two calls that drew
    different octets - two consecutive calls among them - return different
    strings. *)
Theorem generateNonce_draws_48_octets_injectively :
  (forall w : World,
      length (next_bytes 48 (entropy w)) = 48
      /\ generateNonce w
         = (Return (Base64.encode (next_bytes 48 (entropy w))),
            {| cache := cache w; entropy := advance 48 (entropy w) |}))
  /\ (forall b1 b2 : Buffer, Base64.encode b1 = Base64.encode b2 -> b1 = b2)
  /\ (forall (config : Config) (now : Z) (name : string) (w : World) service,
        account_of config name = Some service ->
        exists nonce w',
          createChallenge config now name w = (Return nonce, w')
          /\ String.length nonce = 64
          /\ drawn (entropy w') = drawn (entropy w) + 48)
  /\ (forall (config : Config) (now1 now2 : Z) (name : string) (w1 w2 w1' w2' : World)
             (c1 c2 : string),
        createChallenge config now1 name w1 = (Return c1, w1') ->
        createChallenge config now2 name w2 = (Return c2, w2') ->
        next_bytes 48 (entropy w1) <> next_bytes 48 (entropy w2) ->
        c1 <> c2).
Proof.
  split; [|split; [|split]].
  - intros w. split; [apply next_bytes_length | apply generateNonce_unfold].
  - exact base64_encode_inj.
  - intros config now name w service Hs. eexists _, _.
    split; [exact (createChallenge_registered _ _ _ _ _ Hs)|]. split.
    + rewrite base64_encode_length, next_bytes_length. reflexivity.
    + reflexivity.
  - intros config now1 now2 name w1 w2 w1' w2' c1 c2 H1 H2 Hne Heq.
    destruct (createChallenge_returns _ _ _ _ _ _ H1) as [service Hs].
    rewrite (createChallenge_registered _ _ _ _ _ Hs) in H1.
    rewrite (createChallenge_registered _ _ _ _ _ Hs) in H2.
    injection H1 as <- _. injection H2 as <- _.
    apply Hne, base64_encode_inj, Heq.
Qed.

Lemma generateNonce_draws_48_octets_injectively_witness :
  let call1 := createChallenge Scenario.config Scenario.t0 "svc-A" Scenario.world0 in
  let call2 := createChallenge Scenario.config Scenario.t0 "svc-A" Scenario.world1 in
  call1 = (Return Scenario.nonce0, Scenario.world1)
  /\ call2 = (Return Scenario.nonce1, snd call2)
  /\ next_bytes 48 (entropy Scenario.world0) <> next_bytes 48 (entropy Scenario.world1)
  /\ Scenario.nonce0 <> Scenario.nonce1.
Proof.
  intros call1 call2.
  assert (H1 : call1 = (Return Scenario.nonce0, Scenario.world1)) by reflexivity.
  assert (H2 : call2 = (Return Scenario.nonce1, snd call2)) by reflexivity.
  assert (Hne : next_bytes 48 (entropy Scenario.world0)
                <> next_bytes 48 (entropy Scenario.world1))
    by (vm_compute; discriminate).
  exact (conj H1 (conj H2 (conj Hne
           (proj2 (proj2 (proj2 generateNonce_draws_48_octets_injectively))
              Scenario.config Scenario.t0 Scenario.t0 "svc-A"
              Scenario.world0 Scenario.world1 Scenario.world1 (snd call2)
              Scenario.nonce0 Scenario.nonce1 H1 H2 Hne)))).
Defined.

(** ** The [authenticate] middleware *)

Lemma truthy_Some (h : option string) : truthy h = true -> exists s, h = Some s /\ s <> "".
Proof.
  destruct h as [s|]; simpl; [|discriminate].
  intros H. exists s. split; [reflexivity|].
  intros ->. discriminate H.
Qed.

(** C2, as stated, fails: with no bearer strategy enabled, a request that
    carries an Authorization header and has a session identity is passed on
    as a session request. *)
Lemma authenticate_header_taken_as_session :
  let req := Scenario.request GET "/user-accounts" (Some "Bearer good") (Some Scenario.alice) in
  authorization req = Some "Bearer good"
  /\ authenticate Scenario.config_sessions_only req = CallNext req
  /\ ~ (forall (config : Config) (r : Request),
          authorization r <> None -> authenticate config r = CallBearer r).
Proof.
  intros req. split; [reflexivity|]. split; [reflexivity|].
  intros H. specialize (H Scenario.config_sessions_only req). discriminate H.
  discriminate.
Qed.

(** C2, amended. When configuration enables a bearer strategy (client
    credentials or apikey), a request with a non-empty Authorization header
    is handed to the bearer strategy, never passed on as a session request.
    A request without the header is never handed to the bearer strategy,
    whatever the configuration enables; and when no bearer strategy is
    enabled no request is: one with a session identity is passed on, the
    others get the 401 response. *)
Theorem authenticate_dispatch (config : Config) (req : Request) :
  let bearer_enabled :=
    OidcClientCredentials.enable (ServiceAuthn.oidcClientCredentials (serviceAuthn config))
    || Apikey.enable (ServiceAuthn.apikey (serviceAuthn config)) in
  (bearer_enabled = true -> truthy (authorization req) = true ->
   authenticate config req = CallBearer req)
  /\ (authorization req = None -> forall r, authenticate config req <> CallBearer r)
  /\ (bearer_enabled = false ->
      authenticate config req
      = if isAuthenticated req then CallNext req else Respond 401 "Not authorized").
Proof.
  intros bearer_enabled. subst bearer_enabled. unfold authenticate.
  split; [|split].
  - intros -> ->. reflexivity.
  - intros -> r. simpl truthy. rewrite andb_false_r.
    destruct (isAuthenticated req); discriminate.
  - intros ->. reflexivity.
Qed.

Lemma authenticate_dispatch_witness :
  let req := Scenario.request GET "/user-accounts" (Some "Bearer good") (Some Scenario.alice) in
  let bare := Scenario.request GET "/user-accounts" None (Some Scenario.alice) in
  (authenticate Scenario.config req = CallBearer req)
  /\ (forall r, authenticate Scenario.config bare <> CallBearer r)
  /\ (authenticate Scenario.config_sessions_only req = CallNext req).
Proof.
  intros req bare.
  exact (conj (proj1 (authenticate_dispatch Scenario.config req) eq_refl eq_refl)
           (conj (proj1 (proj2 (authenticate_dispatch Scenario.config bare)) eq_refl)
              (proj2 (proj2 (authenticate_dispatch Scenario.config_sessions_only req))
                 eq_refl))).
Defined.

(** C7. A request with no Authorization header and no session identity gets
    the 401 response, under every configuration; [next] is not called, so in
    a chain of handlers that starts with [authenticate] nothing after it is
    invoked. *)
Theorem authenticate_rejects_unauthenticated (config : Config) (req : Request) :
  authorization req = None ->
  user req = None ->
  authenticate config req = Respond 401 "Not authorized"
  /\ forall (forbidden : string) (bearer : Request -> Outcome)
            (controllers : userAccountsController.op -> Request -> Outcome)
            (rest : list Handler),
       run forbidden (authenticate_handler bearer config) controllers
         (authn_authenticate :: rest) req
       = ([authn_authenticate], Sent 401 "Not authorized").
Proof.
  intros Hh Hu.
  assert (Ha : authenticate config req = Respond 401 "Not authorized").
  { unfold authenticate, isAuthenticated. rewrite Hh, Hu. simpl truthy.
    rewrite andb_false_r. reflexivity. }
  split; [exact Ha|].
  intros forbidden bearer controllers rest.
  cbn [run handle]. unfold authenticate_handler. rewrite Ha. reflexivity.
Qed.

Lemma authenticate_rejects_unauthenticated_witness :
  let req := Scenario.request POST "/user-accounts/register" None None in
  authorization req = None
  /\ user req = None
  /\ authenticate Scenario.config req = Respond 401 "Not authorized"
  /\ forall (forbidden : string) (bearer : Request -> Outcome)
            (controllers : userAccountsController.op -> Request -> Outcome)
            (rest : list Handler),
       run forbidden (authenticate_handler bearer Scenario.config) controllers
         (authn_authenticate :: rest) req
       = ([authn_authenticate], Sent 401 "Not authorized").
Proof.
  intros req.
  exact (conj eq_refl (conj eq_refl
           (authenticate_rejects_unauthenticated Scenario.config req eq_refl eq_refl))).
Defined.

(** ** The user-accounts router *)

Section RouterFacts.

Variable admin : string.
Variable forbidden : string.
Variable authn_authenticate_run : Request -> Outcome.
Variable userAccountsController_run : userAccountsController.op -> Request -> Outcome.
Variable layer_match : string -> string -> bool.

Local Abbreviation run_chain :=
  (run forbidden authn_authenticate_run userAccountsController_run).
Local Abbreviation dispatch_ :=
  (dispatch forbidden authn_authenticate_run userAccountsController_run layer_match).
Local Abbreviation takes_ := (takes layer_match).

(** Every chain of the router is authentication, then the role check for the
    administrator role, then one controller operation. *)
Lemma router_chains (r : Route) (m : Method) :
  In r (router admin) ->
  handles r (effective_method r m) = true ->
  exists o, chain r m = [authn_authenticate; authz_requireRole admin; controller o].
Proof.
  intros Hin Hh. simpl in Hin.
  destruct Hin as [<- | [<- | [<- | []]]]; destruct m; try discriminate Hh;
    eexists; reflexivity.
Qed.

Lemma requireRole_rejects (req : Request) :
  has_role admin (user req) = false ->
  requireRole forbidden admin req = Sent 403 forbidden.
Proof. intros H. unfold requireRole. rewrite H. reflexivity. Qed.

(** A guarded chain stops at authentication or at the role check when the
    request is not that of an administrator. *)
Lemma run_guarded_chain (o : userAccountsController.op) (req : Request) :
  (forall req', authn_authenticate_run req = Next req' ->
                has_role admin (user req') = false) ->
  (exists status body, run_chain [authn_authenticate; authz_requireRole admin; controller o] req
                       = ([authn_authenticate], Sent status body))
  \/ run_chain [authn_authenticate; authz_requireRole admin; controller o] req
     = ([authn_authenticate; authz_requireRole admin], Sent 403 forbidden).
Proof.
  intros Hreq. cbn [run handle].
  destruct (authn_authenticate_run req) as [status body | req'] eqn:Ha.
  - left. eauto.
  - right. rewrite (requireRole_rejects req' (Hreq req' eq_refl)). reflexivity.
Qed.

Lemma dispatch_guarded (routes : list Route) (req : Request) :
  (forall r m, In r routes -> handles r (effective_method r m) = true ->
               exists o, chain r m = [authn_authenticate; authz_requireRole admin; controller o]) ->
  (forall req', authn_authenticate_run req = Next req' ->
                has_role admin (user req') = false) ->
  ((forall r, In r routes -> takes_ r req = false) /\ dispatch_ routes req = ([], Next req))
  \/ (exists status body, dispatch_ routes req = ([authn_authenticate], Sent status body))
  \/ dispatch_ routes req = ([authn_authenticate; authz_requireRole admin], Sent 403 forbidden).
Proof.
  intros Hroutes Hreq.
  induction routes as [|r rest IH]; [left; split; [intros r [] | reflexivity]|].
  cbn [dispatch].
  destruct (takes_ r req) eqn:Htaken.
  - apply andb_prop in Htaken as [_ Hh].
    destruct (Hroutes r (method req) (or_introl eq_refl) Hh) as [o ->].
    destruct (run_guarded_chain o req Hreq) as [(status & body & ->) | ->].
    + right; left. eauto.
    + right; right. reflexivity.
  - destruct IH as [[Hnone Hd] | Hd].
    + intros r' m Hin. apply Hroutes. right. exact Hin.
    + left. split; [|exact Hd]. intros r' [<- | Hin]; [exact Htaken | exact (Hnone r' Hin)].
    + right. exact Hd.
Qed.

(** C9. Every chain of the user-accounts router is [authenticate], then
    [requireRole] for the administrator role, then the controller operation.
    The role check rejects a request whose principal is absent or lacks the
    role; and for a request that authentication does not pass on with an
    administrator as its principal, the router invokes no controller
    operation: the request stops at authentication, or at the role check
    with the 403 response. *)
Theorem user_accounts_routes_guarded :
  (forall r m, In r (router admin) -> handles r (effective_method r m) = true ->
               exists o, chain r m = [authn_authenticate; authz_requireRole admin; controller o])
  /\ (forall req', has_role admin (user req') = false ->
                   requireRole forbidden admin req' = Sent 403 forbidden)
  /\ (forall req,
        (forall req', authn_authenticate_run req = Next req' ->
                      has_role admin (user req') = false) ->
        (forall o, ~ In (controller o) (fst (dispatch_ (router admin) req)))
        /\ (forall r, In r (router admin) -> takes_ r req = true ->
                      (exists status body,
                          dispatch_ (router admin) req = ([authn_authenticate], Sent status body))
                      \/ dispatch_ (router admin) req
                         = ([authn_authenticate; authz_requireRole admin], Sent 403 forbidden))).
Proof.
  split; [exact router_chains|]. split; [exact requireRole_rejects|].
  intros req Hreq.
  pose proof (dispatch_guarded (router admin) req router_chains Hreq) as Hd.
  split.
  - intros o Hin.
    destruct Hd as [[_ Hd] | [(status & body & Hd) | Hd]]; rewrite Hd in Hin; simpl in Hin;
      intuition discriminate.
  - intros r Hin Htaken.
    destruct Hd as [[Hnone _] | [Hd | Hd]]; [| left; exact Hd | right; exact Hd].
    rewrite (Hnone r Hin) in Htaken. discriminate.
Qed.

End RouterFacts.

Lemma user_accounts_routes_guarded_witness :
  let req := Scenario.request GET "/user-accounts" None (Some Scenario.bob) in
  let dispatched :=
    dispatch "Forbidden" (authenticate_handler Scenario.bearer Scenario.config)
      Scenario.controllers Scenario.path_match (router "admin") req in
  (forall req', authenticate_handler Scenario.bearer Scenario.config req = Next req' ->
                has_role "admin" (user req') = false)
  /\ (forall o, ~ In (controller o) (fst dispatched))
  /\ (forall r, In r (router "admin") -> takes Scenario.path_match r req = true ->
                (exists status body, dispatched = ([authn_authenticate], Sent status body))
                \/ dispatched
                   = ([authn_authenticate; authz_requireRole "admin"], Sent 403 "Forbidden")).
Proof.
  intros req dispatched.
  assert (H : forall req', authenticate_handler Scenario.bearer Scenario.config req = Next req' ->
                           has_role "admin" (user req') = false).
  { intros req' Hn. injection Hn as <-. reflexivity. }
  exact (conj H
           (proj2 (proj2 (user_accounts_routes_guarded "admin" "Forbidden"
                            (authenticate_handler Scenario.bearer Scenario.config)
                            Scenario.controllers Scenario.path_match))
              req H)).
Defined.

(** The scenarios of the router, run: an editor is stopped at the role
    check, an administrator token reaches the controller, and a request with
    neither header nor session stops at authentication. *)
Example router_scenarios :
  dispatch "Forbidden" (authenticate_handler Scenario.bearer Scenario.config)
    Scenario.controllers Scenario.path_match (router "admin")
    (Scenario.request GET "/user-accounts" None (Some Scenario.bob))
  = ([authn_authenticate; authz_requireRole "admin"], Sent 403 "Forbidden")
  /\ dispatch "Forbidden" (authenticate_handler Scenario.bearer Scenario.config)
       Scenario.controllers Scenario.path_match (router "admin")
       (Scenario.request POST "/user-accounts/register" (Some "Bearer good") None)
     = ([authn_authenticate; authz_requireRole "admin";
         controller userAccountsController.register], Sent 200 "ok")
  /\ dispatch "Forbidden" (authenticate_handler Scenario.bearer Scenario.config)
       Scenario.controllers Scenario.path_match (router "admin")
       (Scenario.request DELETE "/user-accounts/42" None None)
     = ([authn_authenticate], Sent 401 "Not authorized").
Proof. repeat split; reflexivity. Qed.

(** The handshake of the specification, run: [svc-A] with secret [k1] asks
    for a challenge, redeems it with the digest, and cannot redeem it twice;
    without a challenge the answer is [challengeNotFound]. *)
Example handshake_scenario :
  createChallenge Scenario.config Scenario.t0 "svc-A" Scenario.world0
  = (Return Scenario.nonce0, Scenario.world1)
  /\ fst (createToken HS256.sign Scenario.config (Scenario.t0 + 5000)%Z "svc-A"
            Scenario.proof0 Scenario.world1)
     = Return (issued HS256.sign Scenario.config (Scenario.t0 + 5000)%Z "svc-A")
  /\ expiresIn (issued HS256.sign Scenario.config (Scenario.t0 + 5000)%Z "svc-A") = 300%Z
  /\ fst (createToken HS256.sign Scenario.config (Scenario.t0 + 6000)%Z "svc-A"
            Scenario.proof0
            (snd (createToken HS256.sign Scenario.config (Scenario.t0 + 5000)%Z "svc-A"
                    Scenario.proof0 Scenario.world1)))
     = Throw (Error errors.challengeNotFound)
  /\ fst (createToken HS256.sign Scenario.config Scenario.t0 "svc-A" "wrong-digest"
            Scenario.world0)
     = Throw (Error errors.challengeNotFound)
  /\ fst (createToken HS256.sign Scenario.config (Scenario.t0 + 60001)%Z "svc-A"
            Scenario.proof0 Scenario.world1)
     = Throw (Error errors.challengeNotFound).
Proof. repeat split; vm_compute; reflexivity. Qed.

(** * Further properties of the service *)

(** ** The shape of challenges and of accepted hashes *)

Lemma sha256_hash_N_length (msg : list N) : length (Sha256.hash_N msg) = 32.
Proof.
  unfold Sha256.hash_N.
  destruct (fold_left Sha256.compress _ Sha256.init) as [[[[[[[a b] c] d] e] f] g] h].
  reflexivity.
Qed.

Lemma sha256_hmac_length (key msg : Buffer) : length (Sha256.hmac key msg) = 32.
Proof.
  unfold Sha256.hmac, Sha256.hmac_N. rewrite length_map. apply sha256_hash_N_length.
Qed.

Lemma hex_digit_lower (n : N) : (n < 16)%N -> is_lower_hex (Hex.digit n) = true.
Proof.
  intros Hn.
  assert (Hall : forallb (fun k => is_lower_hex (Hex.digit k)) (map N.of_nat (seq 0 16)) = true)
    by (vm_compute; reflexivity).
  rewrite forallb_forall in Hall. apply Hall.
  apply in_map_iff. exists (N.to_nat n). split; [lia | apply in_seq; lia].
Qed.

Lemma hex_encode_N_shape (l : list N) :
  octets l ->
  String.length (Hex.encode_N l) = 2 * length l
  /\ string_forallb is_lower_hex (Hex.encode_N l) = true.
Proof.
  unfold octets. induction 1 as [|b l Hb Hl [IHlen IHhex]]; [split; reflexivity|].
  cbn [Hex.encode_N String.length length string_forallb]. split; [lia|].
  rewrite IHhex, !hex_digit_lower; [reflexivity | sextet_arith | sextet_arith].
Qed.

Lemma hmac_sha256_hex_shape (key data : string) :
  String.length (hmac_sha256_hex key data) = 64
  /\ string_forallb is_lower_hex (hmac_sha256_hex key data) = true.
Proof.
  unfold hmac_sha256_hex, Hex.encode.
  destruct (hex_encode_N_shape _ (octets_to_N (Sha256.hmac (bytes_of_string key)
                                                 (bytes_of_string data)))) as [Hlen Hhex].
  rewrite length_map, sha256_hmac_length in Hlen. split; assumption.
Qed.

(** X1. A hash is accepted only if it is 64 characters long and made of the
    digits and the lower-case letters a to f: the comparison with the digest
    is exact, so the same digest in upper case, or with anything added, is
    refused. *)
Theorem createToken_accepted_hash_shape
  (jwt_sign : Signer) (config : Config) (now : Z) (name hash : string) (w w' : World)
  (resp : TokenResponse) :
  createToken jwt_sign config now name hash w = (Return resp, w') ->
  String.length hash = 64 /\ string_forallb is_lower_hex hash = true.
Proof.
  rewrite createToken_unfold. intros H. injection H as H _.
  destruct (live now name w) as [c|]; [|discriminate H].
  destruct (String.eqb_spec (expected c) hash) as [<- | _]; [|discriminate H].
  unfold expected. exact (hmac_sha256_hex_shape (apikey c) (challenge c)).
Qed.

Lemma createToken_accepted_hash_shape_witness :
  createToken HS256.sign Scenario.config (Scenario.t0 + 1000)%Z "svc-A" Scenario.proof0
    Scenario.world1
  = (Return (issued HS256.sign Scenario.config (Scenario.t0 + 1000)%Z "svc-A"),
     consumed "svc-A" Scenario.world1)
  /\ String.length Scenario.proof0 = 64
  /\ string_forallb is_lower_hex Scenario.proof0 = true.
Proof.
  assert (H : createToken HS256.sign Scenario.config (Scenario.t0 + 1000)%Z "svc-A"
                Scenario.proof0 Scenario.world1
              = (Return (issued HS256.sign Scenario.config (Scenario.t0 + 1000)%Z "svc-A"),
                 consumed "svc-A" Scenario.world1)).
  { rewrite createToken_unfold. apply (f_equal2 pair); [vm_compute; reflexivity | reflexivity]. }
  exact (conj H (createToken_accepted_hash_shape _ _ _ _ _ _ _ _ H)).
Defined.

Lemma base64_char_in_alphabet (i : N) :
  (i < 64)%N -> in_base64_alphabet (Base64.char_of i) = true.
Proof.
  intros Hi. unfold in_base64_alphabet. by rewrite base64_index_of_char_of.
Qed.

Lemma base64_encode_N_unpadded (l : list N) :
  octets l ->
  length l mod 3 = 0 ->
  string_forallb in_base64_alphabet (Base64.encode_N l) = true.
Proof.
  unfold octets.
  induction l as [|a|a b|a b c l IH] using list_ind3; intros Ho Hlen;
    try reflexivity; try discriminate Hlen.
  inversion Ho as [|? ? Ha Ho1]; subst. inversion Ho1 as [|? ? Hb Ho2]; subst.
  inversion Ho2 as [|? ? Hc Ho3]; subst.
  cbn [Base64.encode_N Base64.sextets string_forallb].
  rewrite IH, !base64_char_in_alphabet; try reflexivity; try assumption; try sextet_arith.
  change (length (a :: b :: c :: l)) with (3 + length l) in Hlen.
  replace (3 + length l) with (length l + 1 * 3) in Hlen by lia.
  rewrite Nat.Div0.mod_add in Hlen. exact Hlen.
Qed.

(** X2. The challenge [createChallenge] returns is 64 characters of the
    base64 alphabet (letters, digits, [+] and [/]), with no padding. *)
Theorem createChallenge_nonce_shape
  (config : Config) (now : Z) (name : string) (w w' : World) (nonce : string) :
  createChallenge config now name w = (Return nonce, w') ->
  String.length nonce = 64 /\ string_forallb in_base64_alphabet nonce = true.
Proof.
  intros Hc. destruct (createChallenge_returns _ _ _ _ _ _ Hc) as [service Hs].
  rewrite (createChallenge_registered _ _ _ _ _ Hs) in Hc. injection Hc as <- _.
  split.
  - rewrite base64_encode_length, next_bytes_length. reflexivity.
  - unfold Base64.encode. apply base64_encode_N_unpadded; [apply octets_to_N|].
    rewrite length_map, next_bytes_length. reflexivity.
Qed.

Lemma createChallenge_nonce_shape_witness :
  createChallenge Scenario.config Scenario.t0 "svc-A" Scenario.world0
  = (Return Scenario.nonce0, Scenario.world1)
  /\ String.length Scenario.nonce0 = 64
  /\ string_forallb in_base64_alphabet Scenario.nonce0 = true.
Proof.
  assert (H : createChallenge Scenario.config Scenario.t0 "svc-A" Scenario.world0
              = (Return Scenario.nonce0, Scenario.world1)) by reflexivity.
  exact (conj H (createChallenge_nonce_shape _ _ _ _ _ _ H)).
Defined.

(** ** Deadlines, independence of services, reissued challenges *)

(** X3. Past the deadline of its slot a service gets [challengeNotFound]
    for every hash, the right digest included, and the stale slot is
    dropped. *)
Theorem createToken_past_deadline
  (jwt_sign : Signer) (config : Config) (now : Z) (name : string) (w : World)
  (slot : Slot) :
  cache w !! name = Some slot ->
  (deadline slot < now)%Z ->
  forall hash : string,
    fst (createToken jwt_sign config now name hash w) = Throw (Error errors.challengeNotFound)
    /\ cache (snd (createToken jwt_sign config now name hash w)) !! name = None.
Proof.
  intros Hk Hd hash. rewrite createToken_unfold. unfold live. rewrite Hk.
  destruct (Z.ltb_spec (deadline slot) now) as [_ | Hle]; [|lia].
  split; [reflexivity|]. unfold consumed; simpl. apply lookup_delete_eq.
Qed.

Lemma createToken_past_deadline_witness :
  cache Scenario.world1 !! "svc-A" = Some Scenario.slot1
  /\ (deadline Scenario.slot1 < Scenario.t0 + 60001)%Z
  /\ fst (createToken HS256.sign Scenario.config (Scenario.t0 + 60001)%Z "svc-A"
            Scenario.proof0 Scenario.world1)
     = Throw (Error errors.challengeNotFound)
  /\ cache (snd (createToken HS256.sign Scenario.config (Scenario.t0 + 60001)%Z "svc-A"
                   Scenario.proof0 Scenario.world1)) !! "svc-A" = None.
Proof.
  assert (Hk : cache Scenario.world1 !! "svc-A" = Some Scenario.slot1)
    by (vm_compute; reflexivity).
  assert (Hd : (deadline Scenario.slot1 < Scenario.t0 + 60001)%Z)
    by (vm_compute; reflexivity).
  exact (conj Hk (conj Hd
           (createToken_past_deadline HS256.sign Scenario.config (Scenario.t0 + 60001)%Z
              "svc-A" Scenario.world1 Scenario.slot1 Hk Hd Scenario.proof0))).
Defined.

Lemma createChallenge_other (config : Config) (now : Z) (name other : string) (w : World) :
  name <> other ->
  cache (snd (createChallenge config now other w)) !! name = cache w !! name.
Proof.
  intros Hne. unfold createChallenge.
  fold (accounts config). fold (account_of config other).
  destruct (account_of config other) as [service|] eqn:Hs; [|reflexivity].
  pose proof (createChallenge_registered config now other w service Hs) as Hc.
  unfold createChallenge in Hc. fold (accounts config) in Hc.
  fold (account_of config other) in Hc. rewrite Hs in Hc. rewrite Hc.
  simpl. apply lookup_insert_ne. congruence.
Qed.

Lemma createToken_depends_on_slot (jwt_sign : Signer) (config : Config) (now : Z)
  (name hash : string) (w1 w2 : World) :
  cache w1 !! name = cache w2 !! name ->
  fst (createToken jwt_sign config now name hash w1)
  = fst (createToken jwt_sign config now name hash w2).
Proof.
  intros Heq. rewrite !createToken_unfold. unfold live. rewrite Heq. reflexivity.
Qed.

(** X4. Services do not disturb one another: what a redemption for one name
    returns is the same after a redemption attempt, or a challenge request,
    for another name, whatever that one presented and whenever. *)
Theorem services_independent
  (jwt_sign : Signer) (config : Config) (now : Z) (name other hash : string) (w : World) :
  name <> other ->
  (forall (jwt_sign' : Signer) (config' : Config) (now' : Z) (hash' : string),
      fst (createToken jwt_sign config now name hash
             (snd (createToken jwt_sign' config' now' other hash' w)))
      = fst (createToken jwt_sign config now name hash w))
  /\ (forall (config' : Config) (now' : Z),
        fst (createToken jwt_sign config now name hash
               (snd (createChallenge config' now' other w)))
        = fst (createToken jwt_sign config now name hash w)).
Proof.
  intros Hne. split.
  - intros. apply createToken_depends_on_slot.
    rewrite createToken_unfold. unfold consumed; simpl.
    apply lookup_delete_ne. congruence.
  - intros. apply createToken_depends_on_slot. by apply createChallenge_other.
Qed.

Lemma services_independent_witness :
  "svc-A" <> "svc-B"
  /\ fst (createToken HS256.sign Scenario.config (Scenario.t0 + 1000)%Z "svc-A"
            Scenario.proof0
            (snd (createToken HS256.sign Scenario.config (Scenario.t0 + 500)%Z "svc-B"
                    "anything" Scenario.world1)))
     = fst (createToken HS256.sign Scenario.config (Scenario.t0 + 1000)%Z "svc-A"
              Scenario.proof0 Scenario.world1).
Proof.
  assert (Hne : "svc-A" <> "svc-B") by discriminate.
  exact (conj Hne
           (proj1 (services_independent HS256.sign Scenario.config (Scenario.t0 + 1000)%Z
                     "svc-A" "svc-B" Scenario.proof0 Scenario.world1 Hne)
              HS256.sign Scenario.config (Scenario.t0 + 500)%Z "anything")).
Defined.

(** X5. A proof for a challenge that has since been replaced burns the new
    challenge: after two challenge requests for a service, presenting the
    digest of the first challenge (when it differs from the digest of the
    second) fails with [invalidChallengeHash], and the digest of the second
    challenge then fails with [challengeNotFound]. *)
Theorem stale_proof_burns_fresh_challenge
  (jwt_sign : Signer) (config : Config) (t1 t2 now : Z) (name : string)
  (w w1 w2 : World) (nonce1 nonce2 : string) (service : ServiceAccount.t) :
  account_of config name = Some service ->
  createChallenge config t1 name w = (Return nonce1, w1) ->
  createChallenge config t2 name w1 = (Return nonce2, w2) ->
  hmac_sha256_hex (ServiceAccount.apikey service) nonce1
  <> hmac_sha256_hex (ServiceAccount.apikey service) nonce2 ->
  (now <= t2 + 60 * 1000)%Z ->
  let stale :=
    createToken jwt_sign config now name
      (hmac_sha256_hex (ServiceAccount.apikey service) nonce1) w2 in
  fst stale = Throw (Error errors.invalidChallengeHash)
  /\ forall now' : Z,
       fst (createToken jwt_sign config now' name
              (hmac_sha256_hex (ServiceAccount.apikey service) nonce2) (snd stale))
       = Throw (Error errors.challengeNotFound).
Proof.
  intros Hs H1 H2 Hne Hnow stale. subst stale.
  rewrite (createChallenge_registered _ _ _ _ _ Hs) in H1.
  rewrite (createChallenge_registered _ _ _ _ _ Hs) in H2.
  injection H1 as <- <-. injection H2 as <- <-.
  rewrite createToken_unfold. cbn [fst snd].
  erewrite live_slot; [| simpl; apply lookup_insert_eq | simpl; lia].
  unfold expected. cbn [value apikey challenge].
  split.
  - match goal with
    | |- context [String.eqb ?a ?b] => destruct (String.eqb_spec a b) as [Heq | _]
    end; [|reflexivity].
    exfalso. apply Hne. symmetry. exact Heq.
  - intros now'. apply createToken_absent. unfold consumed. simpl cache.
    apply lookup_delete_eq.
Qed.

Lemma stale_proof_burns_fresh_challenge_witness :
  let service := {| ServiceAccount.name := "svc-A"; ServiceAccount.apikey := "k1" |} in
  let w2 := snd (createChallenge Scenario.config Scenario.t0 "svc-A" Scenario.world1) in
  let stale :=
    createToken HS256.sign Scenario.config (Scenario.t0 + 1000)%Z "svc-A"
      (hmac_sha256_hex "k1" Scenario.nonce0) w2 in
  account_of Scenario.config "svc-A" = Some service
  /\ createChallenge Scenario.config Scenario.t0 "svc-A" Scenario.world0
     = (Return Scenario.nonce0, Scenario.world1)
  /\ createChallenge Scenario.config Scenario.t0 "svc-A" Scenario.world1
     = (Return Scenario.nonce1, w2)
  /\ hmac_sha256_hex "k1" Scenario.nonce0 <> hmac_sha256_hex "k1" Scenario.nonce1
  /\ (Scenario.t0 + 1000 <= Scenario.t0 + 60 * 1000)%Z
  /\ fst stale = Throw (Error errors.invalidChallengeHash)
  /\ forall now' : Z,
       fst (createToken HS256.sign Scenario.config now' "svc-A"
              (hmac_sha256_hex "k1" Scenario.nonce1) (snd stale))
       = Throw (Error errors.challengeNotFound).
Proof.
  intros service w2 stale.
  assert (Hs : account_of Scenario.config "svc-A" = Some service) by reflexivity.
  assert (H1 : createChallenge Scenario.config Scenario.t0 "svc-A" Scenario.world0
               = (Return Scenario.nonce0, Scenario.world1)) by reflexivity.
  assert (H2 : createChallenge Scenario.config Scenario.t0 "svc-A" Scenario.world1
               = (Return Scenario.nonce1, w2)) by reflexivity.
  assert (Hne : hmac_sha256_hex "k1" Scenario.nonce0 <> hmac_sha256_hex "k1" Scenario.nonce1)
    by (vm_compute; discriminate).
  assert (Hnow : (Scenario.t0 + 1000 <= Scenario.t0 + 60 * 1000)%Z) by lia.
  exact (conj Hs (conj H1 (conj H2 (conj Hne (conj Hnow
           (stale_proof_burns_fresh_challenge HS256.sign Scenario.config Scenario.t0
              Scenario.t0 (Scenario.t0 + 1000)%Z "svc-A" Scenario.world0 Scenario.world1 w2
              Scenario.nonce0 Scenario.nonce1 service Hs H1 H2 Hne Hnow)))))).
Defined.

(** ** The middleware and the router, further *)

(** X6. An Authorization header with an empty value counts as no header:
    also with a bearer strategy enabled the bearer strategy is not called,
    and the request is passed on if it has a session identity and gets the
    401 response otherwise. *)
Theorem authenticate_empty_header (config : Config) (req : Request) :
  authorization req = Some "" ->
  authenticate config req
  = if isAuthenticated req then CallNext req else Respond 401 "Not authorized".
Proof.
  intros Hh. unfold authenticate. rewrite Hh. simpl truthy. rewrite andb_false_r.
  reflexivity.
Qed.

Lemma authenticate_empty_header_witness :
  let req := Scenario.request GET "/user-accounts" (Some "") (Some Scenario.alice) in
  authorization req = Some ""
  /\ authenticate Scenario.config req = CallNext req.
Proof.
  intros req.
  exact (conj eq_refl (authenticate_empty_header Scenario.config req eq_refl)).
Defined.

Section RouterFurther.

Variable admin : string.
Variable forbidden : string.
Variable authn_authenticate_run : Request -> Outcome.
Variable layer_match : string -> string -> bool.

Local Abbreviation dispatch_with c :=
  (dispatch forbidden authn_authenticate_run c layer_match).
Local Abbreviation run_with c := (run forbidden authn_authenticate_run c).

Lemma run_guarded_agree (c c' : userAccountsController.op -> Request -> Outcome)
  (o : userAccountsController.op) (req : Request) :
  (forall o r, has_role admin (user r) = true -> c o r = c' o r) ->
  run_with c [authn_authenticate; authz_requireRole admin; controller o] req
  = run_with c' [authn_authenticate; authz_requireRole admin; controller o] req.
Proof.
  intros Hagree. cbn [run handle].
  destruct (authn_authenticate_run req) as [status body | req']; [reflexivity|].
  unfold requireRole.
  destruct (has_role admin (user req')) eqn:Hrole; [|reflexivity].
  rewrite (Hagree o req' Hrole). reflexivity.
Qed.

Lemma dispatch_guarded_agree (c c' : userAccountsController.op -> Request -> Outcome)
  (routes : list Route) :
  guarded_routes admin routes ->
  (forall o r, has_role admin (user r) = true -> c o r = c' o r) ->
  forall req, dispatch_with c routes req = dispatch_with c' routes req.
Proof.
  intros Hroutes Hagree. induction routes as [|r rest IH]; intros req; [reflexivity|].
  assert (Hrest : guarded_routes admin rest).
  { intros r' m Hin. apply Hroutes. right. exact Hin. }
  cbn [dispatch]. destruct (takes layer_match r req) eqn:Htaken.
  - apply andb_prop in Htaken as [_ Hh].
    destruct (Hroutes r (method req) (or_introl eq_refl) Hh) as [o ->].
    rewrite (run_guarded_agree c c' o req Hagree).
    destruct (run_with c' _ req) as [tr [status body | req']]; [reflexivity|].
    rewrite (IH Hrest req'). reflexivity.
  - apply IH, Hrest.
Qed.

(** X7. The controller operations only ever see requests whose principal
    holds the administrator role: two controllers that agree on such requests
    make the router behave the same on every request. *)
Theorem controllers_see_administrators_only
  (c c' : userAccountsController.op -> Request -> Outcome) :
  (forall o r, has_role admin (user r) = true -> c o r = c' o r) ->
  forall req, dispatch_with c (router admin) req = dispatch_with c' (router admin) req.
Proof.
  intros Hagree. apply dispatch_guarded_agree; [|exact Hagree].
  intros r m. apply router_chains.
Qed.


(** X9. No route registers HEAD, so every route answers HEAD with its GET
    chain: a HEAD request is taken by the routes that take the same request
    as a GET, and goes through the same handlers. *)
Theorem head_served_as_get (r : Route) (url_ : string) (h : option string)
  (p : option Principal) :
  In r (router admin) ->
  chain r HEAD = chain r GET
  /\ takes layer_match r {| method := HEAD; url := url_; authorization := h; user := p |}
     = takes layer_match r {| method := GET; url := url_; authorization := h; user := p |}.
Proof.
  intros Hin. simpl in Hin.
  destruct Hin as [<- | [<- | [<- | []]]]; split; reflexivity.
Qed.

Lemma dispatch_first_taking (c : userAccountsController.op -> Request -> Outcome)
  (routes : list Route) (req : Request) (r : Route) :
  first_taking layer_match routes req = Some r ->
  exists rest,
    dispatch_with c routes req
    = match run_with c (chain r (method req)) req with
      | (tr, Next req') =>
          let '(tr', o) := dispatch_with c rest req' in ((tr ++ tr')%list, o)
      | (tr, Sent status body) => (tr, Sent status body)
      end.
Proof.
  unfold first_taking. induction routes as [|r0 rest IH]; [discriminate|].
  cbn [find dispatch]. destruct (takes layer_match r0 req) eqn:Htaken.
  - intros [= <-]. exists rest. reflexivity.
  - exact IH.
Qed.

(** X10. An administrator reaches the operation: when the first route that
    takes a request has the chain of operation [o], authentication passes the
    request on with a principal that holds the administrator role, and the
    operation answers, the router runs authentication, the role check and
    the operation, in this order, and the answer is that of the operation on
    the request as authentication left it. *)
Theorem administrators_reach_the_operation
  (c : userAccountsController.op -> Request -> Outcome) (req req' : Request) (r : Route)
  (o : userAccountsController.op) (status : nat) (body : string) :
  first_taking layer_match (router admin) req = Some r ->
  chain r (method req) = [authn_authenticate; authz_requireRole admin; controller o] ->
  authn_authenticate_run req = Next req' ->
  has_role admin (user req') = true ->
  c o req' = Sent status body ->
  dispatch_with c (router admin) req
  = ([authn_authenticate; authz_requireRole admin; controller o], Sent status body).
Proof.
  intros Hfirst Hchain Hauthn Hrole Hop.
  destruct (dispatch_first_taking c _ _ _ Hfirst) as [rest ->].
  rewrite Hchain. cbn [run handle]. rewrite Hauthn. unfold requireRole. rewrite Hrole, Hop.
  reflexivity.
Qed.

End RouterFurther.

Lemma controllers_see_administrators_only_witness :
  (forall o r, has_role "admin" (user r) = true ->
               Scenario.controllers o r = Further.controllers_strict o r)
  /\ forall req,
       dispatch "Forbidden" (authenticate_handler Scenario.bearer Scenario.config)
         Scenario.controllers Scenario.path_match (router "admin") req
       = dispatch "Forbidden" (authenticate_handler Scenario.bearer Scenario.config)
           Further.controllers_strict Scenario.path_match (router "admin") req.
Proof.
  assert (H : forall o r, has_role "admin" (user r) = true ->
                          Scenario.controllers o r = Further.controllers_strict o r).
  { intros o r Hr. unfold Further.controllers_strict. rewrite Hr. reflexivity. }
  exact (conj H
           (controllers_see_administrators_only "admin" "Forbidden"
              (authenticate_handler Scenario.bearer Scenario.config) Scenario.path_match
              Scenario.controllers Further.controllers_strict H)).
Defined.


Lemma head_served_as_get_witness :
  In Further.collection (router "admin")
  /\ chain Further.collection HEAD = chain Further.collection GET
  /\ takes Scenario.path_match Further.collection
       (Scenario.request HEAD "/user-accounts" None None)
     = takes Scenario.path_match Further.collection
         (Scenario.request GET "/user-accounts" None None).
Proof.
  assert (H : In Further.collection (router "admin")) by (left; reflexivity).
  exact (conj H
           (head_served_as_get "admin" Scenario.path_match Further.collection
              "/user-accounts" None None H)).
Defined.

Lemma administrators_reach_the_operation_witness :
  let req := Scenario.request POST "/user-accounts/register" (Some "Bearer good") None in
  let req' :=
    Scenario.request POST "/user-accounts/register" (Some "Bearer good")
      (Some {| identity := "svc-A"; roles := ["admin"] |}) in
  first_taking Scenario.path_match (router "admin") req = Some Further.registration
  /\ chain Further.registration (method req)
     = [authn_authenticate; authz_requireRole "admin";
        controller userAccountsController.register]
  /\ authenticate_handler Scenario.bearer Scenario.config req = Next req'
  /\ has_role "admin" (user req') = true
  /\ Scenario.controllers userAccountsController.register req' = Sent 200 "ok"
  /\ dispatch "Forbidden" (authenticate_handler Scenario.bearer Scenario.config)
       Scenario.controllers Scenario.path_match (router "admin") req
     = ([authn_authenticate; authz_requireRole "admin";
         controller userAccountsController.register], Sent 200 "ok").
Proof.
  intros req req'.
  assert (H1 : first_taking Scenario.path_match (router "admin") req
               = Some Further.registration) by reflexivity.
  assert (H2 : chain Further.registration (method req)
               = [authn_authenticate; authz_requireRole "admin";
                  controller userAccountsController.register]) by reflexivity.
  assert (H3 : authenticate_handler Scenario.bearer Scenario.config req = Next req')
    by reflexivity.
  assert (H4 : has_role "admin" (user req') = true) by reflexivity.
  assert (H5 : Scenario.controllers userAccountsController.register req' = Sent 200 "ok")
    by reflexivity.
  exact (conj H1 (conj H2 (conj H3 (conj H4 (conj H5
           (administrators_reach_the_operation "admin" "Forbidden"
              (authenticate_handler Scenario.bearer Scenario.config) Scenario.path_match
              Scenario.controllers req req' Further.registration
              userAccountsController.register 200 "ok" H1 H2 H3 H4 H5)))))).
Defined.

(** * [app/services/technique-service.js] *)

Section TechniqueFacts.

Import TechniqueService.

Variable S : Type.
Variable d : Driver S.
Variable Data : Type.
Variable Technique_new : Data -> Technique.

Lemma retrieveById_falsy (stixId : option string) :
  truthy stixId = false ->
  retrieveById stixId
  = Callback (Some (set_parameterName "stixId" (new_Error errors.missingParameter))) None.
Proof.
  intros Hf. unfold retrieveById. destruct stixId as [i|]; [|reflexivity].
  rewrite Hf. reflexivity.
Qed.

(** X11. Without an identifier - none, or the empty string - [retrieveById]
    calls back with the error [missingParameter] for parameter [stixId] and
    does not call the model. *)
Theorem retrieveById_without_id (stixId : option string) (s : S) :
  truthy stixId = false ->
  exec d (retrieveById stixId) s
  = ([], (Some {| name := "Error"; message := "Missing required parameter";
                  code := None; parameterName := Some "stixId" |}, None), s).
Proof. intros Hf. rewrite (retrieveById_falsy stixId Hf). reflexivity. Qed.

Lemma retrieveById_with_id (i : string) (s : S) :
  i <> "" ->
  exec d (retrieveById (Some i)) s
  = ([OpFindById i],
     match findById d i s with
     | (Some e, _) =>
         (Some (if String.eqb (name e) "CastError"
                then set_parameterName "stixId" (new_Error errors.badlyFormattedParameter)
                else e), None)
     | (None, technique) => (None, technique)
     end, s).
Proof.
  intros Hi. unfold retrieveById.
  assert (Ht : truthy (Some i) = true).
  { simpl. destruct (String.eqb_spec i ""); [contradiction | reflexivity]. }
  rewrite Ht. cbn [exec].
  destruct (findById d i s) as [[e|] [technique|]]; cbn [exec];
    try destruct (String.eqb (name e) "CastError"); reflexivity.
Qed.

Lemma create_exec (data : Data) (s : S) :
  exec d (create Data Technique_new data) s
  = let '(uuid, s1) := uuid_v4 d s in
    let doc :=
      set_stix_id (Some ("attack-pattern--" ++ uuid))
        (set_id ("attack-pattern--" ++ uuid) (Technique_new data)) in
    let '((err, saved), s2) := save d doc s1 in
    ([OpUuid_v4 uuid; OpSave doc],
     match err with
     | Some e =>
         (Some (if String.eqb (name e) "MongoError" && code_is 11000 e
                then new_Error errors.duplicateId else e), None)
     | None => (None, saved)
     end, s2).
Proof.
  unfold create. cbn [exec]. destruct (uuid_v4 d s) as [uuid s1].
  cbn [set_id set_stix_id _id stix]. cbn zeta.
  destruct (save d _ s1) as [[[e|] saved] s2]; cbn [exec];
    try destruct (String.eqb (name e) "MongoError" && code_is 11000 e); reflexivity.
Qed.

Lemma retrieveAll_exec (s : S) :
  exec d retrieveAll s
  = ([OpFind],
     match find d s with
     | (Some e, _) => (Some e, None)
     | (None, techniques) => (None, techniques)
     end, s).
Proof.
  unfold retrieveAll. cbn [exec].
  destruct (find d s) as [[e|] techniques]; reflexivity.
Qed.

(** X12. The three functions call back with an error or with a result,
    never with both, also when the model hands both to them. *)
Theorem callback_error_or_result (s : S) :
  (forall e, fst (snd (fst (exec d retrieveAll s))) = Some e ->
             snd (snd (fst (exec d retrieveAll s))) = None)
  /\ (forall stixId e,
        fst (snd (fst (exec d (retrieveById stixId) s))) = Some e ->
        snd (snd (fst (exec d (retrieveById stixId) s))) = None)
  /\ (forall data e,
        fst (snd (fst (exec d (create Data Technique_new data) s))) = Some e ->
        snd (snd (fst (exec d (create Data Technique_new data) s))) = None).
Proof.
  split; [|split].
  - intros e. rewrite retrieveAll_exec. cbn [fst snd].
    destruct (find d s) as [[e0|] techniques]; [reflexivity | discriminate].
  - intros stixId e. destruct (truthy stixId) eqn:Ht.
    + apply truthy_Some in Ht as (i & -> & Hi).
      rewrite (retrieveById_with_id i s Hi). cbn [fst snd].
      destruct (findById d i s) as [[e0|] technique]; [reflexivity | discriminate].
    + rewrite (retrieveById_falsy stixId Ht). reflexivity.
  - intros data e. rewrite create_exec.
    destruct (uuid_v4 d s) as [uuid s1]. cbn zeta.
    destruct (save d _ s1) as [[[e0|] saved] s2]; cbn [fst snd]; [reflexivity | discriminate].
Qed.

(** X13. A caller of [retrieveById] never sees a [CastError]: the model's
    cast error is replaced by the error [badlyFormattedParameter] for
    parameter [stixId], and any other error of the model is passed on as it
    is. *)
Theorem retrieveById_errors (stixId : option string) (s : S) :
  (forall e, fst (snd (fst (exec d (retrieveById stixId) s))) = Some e ->
             name e <> "CastError")
  /\ (forall i e0 technique,
        stixId = Some i -> i <> "" -> findById d i s = (Some e0, technique) ->
        exec d (retrieveById stixId) s
        = ([OpFindById i],
           (Some (if String.eqb (name e0) "CastError"
                  then {| name := "Error"; message := "Badly formatted parameter";
                          code := None; parameterName := Some "stixId" |}
                  else e0), None), s)).
Proof.
  split.
  - intros e. destruct (truthy stixId) eqn:Ht.
    + apply truthy_Some in Ht as (i & -> & Hi).
      rewrite (retrieveById_with_id i s Hi). cbn [fst snd].
      destruct (findById d i s) as [[e0|] technique]; [|discriminate].
      destruct (String.eqb_spec (name e0) "CastError") as [Hc | Hc];
        intros [= <-]; [discriminate | exact Hc].
    + rewrite (retrieveById_falsy stixId Ht). cbn [exec fst snd].
      intros [= <-]. discriminate.
  - intros i e0 technique -> Hi Hf.
    rewrite (retrieveById_with_id i s Hi), Hf. reflexivity.
Qed.

(** X14. [create] gives the document a fresh identifier, whatever the data
    carried: it asks [uuid] once and saves once, and the document saved has
    [_id] equal to [attack-pattern--] followed by the uuid, [stix.id] equal
    to [_id], and the other properties the model built from the data. *)
Theorem create_assigns_the_id (data : Data) (s : S) :
  exists uuid doc,
    fst (uuid_v4 d s) = uuid
    /\ fst (fst (exec d (create Data Technique_new data) s)) = [OpUuid_v4 uuid; OpSave doc]
    /\ _id doc = Some ("attack-pattern--" ++ uuid)
    /\ id (stix doc) = _id doc
    /\ properties (stix doc) = properties (stix (Technique_new data)).
Proof.
  rewrite create_exec. destruct (uuid_v4 d s) as [uuid s1]. cbn zeta.
  destruct (save d _ s1) as [[err saved] s2]. cbn [fst].
  eexists _, _. repeat split.
Qed.

(** X15. When the save fails with a [MongoError] of code 11000, [create]
    calls back with the error [duplicateId], which carries nothing of the
    model's error; an error with another name or another code is passed on
    as it is. *)
Theorem create_errors (data : Data) (s : S) (e : Err) :
  (forall saved s2,
      save d (set_stix_id (Some ("attack-pattern--" ++ fst (uuid_v4 d s)))
                (set_id ("attack-pattern--" ++ fst (uuid_v4 d s)) (Technique_new data)))
             (snd (uuid_v4 d s))
      = ((Some e, saved), s2) ->
      snd (fst (exec d (create Data Technique_new data) s))
      = (Some (if String.eqb (name e) "MongoError" && code_is 11000 e
               then {| name := "Error"; message := "Duplicate id";
                       code := None; parameterName := None |}
               else e), None)).
Proof.
  intros saved s2 Hs. rewrite create_exec.
  destruct (uuid_v4 d s) as [uuid s1]. cbn [fst snd] in Hs. cbn zeta.
  rewrite Hs. reflexivity.
Qed.

(** X16. What [create] saved, [retrieveById] finds: with a model that keeps
    what it saved, a successful [create] calls back with a document that has an
    [_id], and [retrieveById] with this [_id] calls the model and calls back
    with the same document. *)
Theorem create_then_retrieveById (data : Data) (s s' : S) (ops : list Op)
  (saved : Technique) :
  keeps_saved d ->
  exec d (create Data Technique_new data) s = (ops, (None, Some saved), s') ->
  exists i,
    _id saved = Some i
    /\ exec d (retrieveById (Some i)) s' = ([OpFindById i], (None, Some saved), s').
Proof.
  intros Hkeeps. rewrite create_exec.
  destruct (uuid_v4 d s) as [uuid s1]. cbn zeta.
  destruct (save d _ s1) as [[[e|] saved0] s2] eqn:Hsave; [discriminate|].
  intros [= <- -> <-].
  destruct (Hkeeps _ _ _ _ Hsave) as [-> Hfound].
  exists ("attack-pattern--" ++ uuid). split; [reflexivity|].
  rewrite retrieveById_with_id by discriminate.
  rewrite (Hfound _ eq_refl). reflexivity.
Qed.

End TechniqueFacts.

Lemma memory_keeps_saved : TechniqueService.keeps_saved TechniqueService.memory.
Proof.
  intros doc s s' saved H. cbn in H.
  destruct (TechniqueService._id doc) as [i|] eqn:Hid; [|discriminate H].
  destruct (TechniqueService.docs s !! i) eqn:Hi; [discriminate H|].
  injection H as <- <-. split; [reflexivity|].
  intros i0 [= <-]. cbn. rewrite lookup_insert_eq. reflexivity.
Qed.

Lemma retrieveById_without_id_witness :
  truthy (Some "") = false
  /\ TechniqueService.exec TechniqueService.memory
       (TechniqueService.retrieveById (Some "")) Samples.taken_store
     = ([], (Some {| TechniqueService.name := "Error";
                     TechniqueService.message := "Missing required parameter";
                     TechniqueService.code := None;
                     TechniqueService.parameterName := Some "stixId" |}, None),
        Samples.taken_store).
Proof.
  exact (conj eq_refl
           (retrieveById_without_id TechniqueService.Store TechniqueService.memory
              (Some "") Samples.taken_store eq_refl)).
Defined.

Lemma callback_error_or_result_witness :
  let run :=
    TechniqueService.exec (TechniqueService.picky "not-an-id")
      (TechniqueService.retrieveById (Some "not-an-id")) Samples.empty_store in
  fst (snd (fst run))
  = Some {| TechniqueService.name := "Error";
            TechniqueService.message := "Badly formatted parameter";
            TechniqueService.code := None;
            TechniqueService.parameterName := Some "stixId" |}
  /\ snd (snd (fst run)) = None.
Proof.
  intros run.
  assert (H : fst (snd (fst run))
              = Some {| TechniqueService.name := "Error";
                        TechniqueService.message := "Badly formatted parameter";
                        TechniqueService.code := None;
                        TechniqueService.parameterName := Some "stixId" |})
    by reflexivity.
  exact (conj H
           (proj1 (proj2 (callback_error_or_result TechniqueService.Store
                            (TechniqueService.picky "not-an-id")
                            TechniqueService.Technique (fun data => data)
                            Samples.empty_store))
              (Some "not-an-id") _ H)).
Defined.

Lemma retrieveById_errors_witness :
  let cast_error :=
    {| TechniqueService.name := "CastError";
       TechniqueService.message := "Cast to ObjectId failed";
       TechniqueService.code := None;
       TechniqueService.parameterName := None |} in
  "not-an-id" <> ""
  /\ TechniqueService.findById (TechniqueService.picky "not-an-id") "not-an-id"
       Samples.empty_store
     = (Some cast_error, None)
  /\ TechniqueService.exec (TechniqueService.picky "not-an-id")
       (TechniqueService.retrieveById (Some "not-an-id")) Samples.empty_store
     = ([TechniqueService.OpFindById "not-an-id"],
        (Some (if String.eqb (TechniqueService.name cast_error) "CastError"
               then {| TechniqueService.name := "Error";
                       TechniqueService.message := "Badly formatted parameter";
                       TechniqueService.code := None;
                       TechniqueService.parameterName := Some "stixId" |}
               else cast_error), None),
        Samples.empty_store).
Proof.
  intros cast_error.
  assert (Hi : "not-an-id" <> "") by discriminate.
  assert (Hf : TechniqueService.findById (TechniqueService.picky "not-an-id") "not-an-id"
                 Samples.empty_store
               = (Some cast_error, None)) by reflexivity.
  exact (conj Hi (conj Hf
           (proj2 (retrieveById_errors TechniqueService.Store
                     (TechniqueService.picky "not-an-id") (Some "not-an-id")
                     Samples.empty_store)
              "not-an-id" cast_error None eq_refl Hi Hf))).
Defined.

Lemma create_errors_witness :
  let duplicate :=
    {| TechniqueService.name := "MongoError";
       TechniqueService.message := "E11000 duplicate key error";
       TechniqueService.code := Some 11000%Z;
       TechniqueService.parameterName := None |} in
  TechniqueService.save TechniqueService.memory
    (TechniqueService.set_stix_id
       (Some ("attack-pattern--"
              ++ fst (TechniqueService.uuid_v4 TechniqueService.memory Samples.taken_store)))
       (TechniqueService.set_id
          ("attack-pattern--"
           ++ fst (TechniqueService.uuid_v4 TechniqueService.memory Samples.taken_store))
          Samples.data0))
    (snd (TechniqueService.uuid_v4 TechniqueService.memory Samples.taken_store))
  = ((Some duplicate, None),
     snd (TechniqueService.uuid_v4 TechniqueService.memory Samples.taken_store))
  /\ snd (fst (TechniqueService.exec TechniqueService.memory
                 (TechniqueService.create TechniqueService.Technique (fun data => data)
                    Samples.data0)
                 Samples.taken_store))
     = (Some (if String.eqb (TechniqueService.name duplicate) "MongoError"
                 && TechniqueService.code_is 11000 duplicate
              then {| TechniqueService.name := "Error";
                      TechniqueService.message := "Duplicate id";
                      TechniqueService.code := None;
                      TechniqueService.parameterName := None |}
              else duplicate), None).
Proof.
  intros duplicate.
  assert (H : TechniqueService.save TechniqueService.memory
                (TechniqueService.set_stix_id
                   (Some ("attack-pattern--"
                          ++ fst (TechniqueService.uuid_v4 TechniqueService.memory
                                    Samples.taken_store)))
                   (TechniqueService.set_id
                      ("attack-pattern--"
                       ++ fst (TechniqueService.uuid_v4 TechniqueService.memory
                                 Samples.taken_store))
                      Samples.data0))
                (snd (TechniqueService.uuid_v4 TechniqueService.memory Samples.taken_store))
              = ((Some duplicate, None),
                 snd (TechniqueService.uuid_v4 TechniqueService.memory Samples.taken_store)))
    by (vm_compute; reflexivity).
  exact (conj H
           (create_errors TechniqueService.Store TechniqueService.memory
              TechniqueService.Technique (fun data => data) Samples.data0
              Samples.taken_store duplicate None _ H)).
Defined.

Lemma create_then_retrieveById_witness :
  let created :=
    TechniqueService.exec TechniqueService.memory
      (TechniqueService.create TechniqueService.Technique (fun data => data) Samples.data0)
      Samples.empty_store in
  let saved :=
    {| TechniqueService._id := Some "attack-pattern--0";
       TechniqueService.stix :=
         {| TechniqueService.id := Some "attack-pattern--0";
            TechniqueService.properties := [("name", "Phishing")] |} |} in
  TechniqueService.keeps_saved TechniqueService.memory
  /\ created = (fst (fst created), (None, Some saved), snd created)
  /\ exists i,
       TechniqueService._id saved = Some i
       /\ TechniqueService.exec TechniqueService.memory
            (TechniqueService.retrieveById (Some i)) (snd created)
          = ([TechniqueService.OpFindById i], (None, Some saved), snd created).
Proof.
  intros created saved.
  assert (H : created = (fst (fst created), (None, Some saved), snd created))
    by (vm_compute; reflexivity).
  exact (conj memory_keeps_saved (conj H
           (create_then_retrieveById TechniqueService.Store TechniqueService.memory
              TechniqueService.Technique (fun data => data) Samples.data0
              Samples.empty_store (snd created) (fst (fst created)) saved
              memory_keeps_saved H))).
Defined.

(** * [app/index.js] *)


(** * [app/index.js] *)

Section IndexFacts.

Import Index.

Lemma initializeApp_again (config : AppConfig) (bundle : string -> Result string)
  (p : Process) (a : Express) :
  app p = Some a -> initializeApp config bundle p = (Return a, p).
Proof. intros Ha. unfold initializeApp. rewrite Ha. reflexivity. Qed.

Lemma initializeApp_elsewhere (config : AppConfig) (bundle : string -> Result string)
  (p : Process) :
  app p = None ->
  String.eqb (env config) "development" = false ->
  initializeApp config bundle p
  = (Return (built config []),
     {| app := Some (built config []);
        logged := (logged p ++ ["ATT&CK Workbench REST API app starting";
                                "Configuring the app"; "Starting express";
                                "Configuring static routes";
                                "Configuring REST API routes"])%list |}).
Proof.
  intros Ha He. unfold initializeApp. rewrite Ha, He.
  cbv [ibind iret logger_info new_app app_use app_set update_app the_app option_map
       app logged built at_root].
  cbn [map app stack settings logged List.app]. rewrite <- !app_assoc. reflexivity.
Qed.

Lemma initializeApp_development (config : AppConfig) (bundle : string -> Result string)
  (p : Process) (openApiDoc : string) :
  app p = None ->
  String.eqb (env config) "development" = true ->
  bundle (specPath config) = Return openApiDoc ->
  initializeApp config bundle p
  = (Return (built config (development_layers openApiDoc)),
     {| app := Some (built config (development_layers openApiDoc));
        logged := (logged p ++ ["ATT&CK Workbench REST API app starting";
                                "Configuring the app"; "Starting express";
                                "Enabling HTTP request logging"; "Enabling Swagger UI";
                                "Configuring static routes";
                                "Configuring REST API routes"])%list |}).
Proof.
  intros Ha He Hb. unfold initializeApp. rewrite Ha, He.
  cbv [ibind iret logger_info new_app app_use app_set update_app the_app option_map
       app logged built at_root await development_layers].
  rewrite Hb.
  cbn [map app stack settings logged List.app]. rewrite <- !app_assoc. reflexivity.
Qed.

Lemma initializeApp_broken (config : AppConfig) (bundle : string -> Result string)
  (p : Process) (e : JsError) :
  app p = None ->
  String.eqb (env config) "development" = true ->
  bundle (specPath config) = Throw e ->
  initializeApp config bundle p
  = (Throw e,
     {| app := Some {| stack := (at_root [cors; compression; helmet; morgan "dev"])%list;
                       settings := ∅ |};
        logged := (logged p ++ ["ATT&CK Workbench REST API app starting";
                                "Configuring the app"; "Starting express";
                                "Enabling HTTP request logging";
                                "Enabling Swagger UI"])%list |}).
Proof.
  intros Ha He Hb. unfold initializeApp. rewrite Ha, He.
  cbv [ibind iret logger_info new_app app_use app_set update_app the_app option_map
       app logged at_root await].
  rewrite Hb.
  cbn [map app stack settings logged List.app]. rewrite <- !app_assoc. reflexivity.
Qed.

Lemma initializeApp_cases (config : AppConfig) (bundle : string -> Result string)
  (p : Process) (a : Express) (p' : Process) :
  initializeApp config bundle p = (Return a, p') ->
  app p' = Some a
  /\ (app p = None ->
      a = built config []
      \/ (env config = "development"
          /\ exists openApiDoc,
               bundle (specPath config) = Return openApiDoc
               /\ a = built config (development_layers openApiDoc))).
Proof.
  intros H. destruct (app p) as [a0|] eqn:Ha.
  - rewrite (initializeApp_again _ _ _ _ Ha) in H. injection H as <- <-.
    split; [exact Ha | discriminate].
  - destruct (String.eqb_spec (env config) "development") as [He | He].
    + destruct (bundle (specPath config)) as [doc | e] eqn:Hb.
      * rewrite (initializeApp_development _ _ _ doc Ha) in H;
          [| rewrite He; reflexivity | exact Hb].
        injection H as <- <-. split; [reflexivity|]. intros _. right. eauto.
      * rewrite (initializeApp_broken _ _ _ e Ha) in H;
          [| rewrite He; reflexivity | exact Hb].
        discriminate H.
    + rewrite (initializeApp_elsewhere _ _ _ Ha) in H;
        [| destruct (String.eqb_spec (env config) "development"); congruence].
      injection H as <- <-. split; [reflexivity|]. intros _. left. reflexivity.
Qed.

(** X17. The application is set up once: after a call that returned the
    application, every further call - under any configuration - returns the
    same application, adds no layer and logs nothing. *)
Theorem initializeApp_sets_up_once (config : AppConfig) (bundle : string -> Result string)
  (p p' : Process) (a : Express) :
  initializeApp config bundle p = (Return a, p') ->
  forall (config' : AppConfig) (bundle' : string -> Result string),
    initializeApp config' bundle' p' = (Return a, p').
Proof.
  intros H config' bundle'.
  apply initializeApp_again. exact (proj1 (initializeApp_cases _ _ _ _ _ H)).
Qed.

(** X18. Outside the development environment the OpenAPI document is not
    bundled: on a process without an application the call returns whatever
    the bundler would do, and the application has neither request logging nor
    the Swagger UI. The environment is compared letter for letter. *)
Theorem initializeApp_outside_development
  (config : AppConfig) (bundle bundle' : string -> Result string) (p : Process) :
  app p = None ->
  env config <> "development" ->
  initializeApp config bundle p = initializeApp config bundle' p
  /\ exists a p',
       initializeApp config bundle p = (Return a, p')
       /\ map handle (stack a) = [cors; compression; helmet; express_static "public"; routes].
Proof.
  intros Ha He.
  assert (Hb : String.eqb (env config) "development" = false)
    by (destruct (String.eqb_spec (env config) "development"); congruence).
  rewrite !(initializeApp_elsewhere _ _ _ Ha Hb). split; [reflexivity|].
  eexists _, _. split; reflexivity.
Qed.

(** X19. A start that fails leaves a half-built application behind: in the
    development environment, when bundling the OpenAPI document fails, the
    call fails with the error of the bundler, and every later call returns an
    application that has the first layers and the request logging but does
    not serve the API routes and has no settings. *)
Theorem initializeApp_failed_start
  (config : AppConfig) (bundle : string -> Result string) (p : Process) (e : JsError) :
  app p = None ->
  env config = "development" ->
  bundle (specPath config) = Throw e ->
  fst (initializeApp config bundle p) = Throw e
  /\ forall (config' : AppConfig) (bundle' : string -> Result string),
       exists a,
         initializeApp config' bundle' (snd (initializeApp config bundle p))
         = (Return a, snd (initializeApp config bundle p))
         /\ map handle (stack a) = [cors; compression; helmet; morgan "dev"]
         /\ serves_routes a = false
         /\ settings a = ∅.
Proof.
  intros Ha He Hb.
  rewrite (initializeApp_broken _ _ _ e Ha); [| rewrite He; reflexivity | exact Hb].
  split; [reflexivity|]. intros config' bundle'. eexists. split.
  - apply initializeApp_again. reflexivity.
  - repeat split.
Qed.

(** X20. The order of the layers: an application set up by a call that
    succeeded has cors, compression and helmet first and the static files and
    the API routes last; between them there is nothing, or - only in the
    development environment - the request logging and the two layers of the
    Swagger UI for the bundled document, mounted under [/api-docs]. *)
Theorem initializeApp_layers
  (config : AppConfig) (bundle : string -> Result string) (p p' : Process) (a : Express) :
  app p = None ->
  initializeApp config bundle p = (Return a, p') ->
  exists middle,
    stack a = (at_root [cors; compression; helmet] ++ middle
               ++ at_root [express_static "public"; routes])%list
    /\ (middle = []
        \/ (env config = "development"
            /\ exists openApiDoc,
                 bundle (specPath config) = Return openApiDoc
                 /\ middle = [ {| mountpath := "/"; handle := morgan "dev" |};
                               {| mountpath := "/api-docs"; handle := swaggerUi_serve |};
                               {| mountpath := "/api-docs";
                                  handle := swaggerUi_setup openApiDoc |} ])).
Proof.
  intros Ha H.
  destruct (proj2 (initializeApp_cases _ _ _ _ _ H) Ha) as [-> | (He & doc & Hb & ->)].
  - exists []. split; [reflexivity | left; reflexivity].
  - exists (development_layers doc). split; [reflexivity|]. right. eauto.
Qed.

End IndexFacts.

Lemma initializeApp_sets_up_once_witness :
  let first := Index.initializeApp Samples.production Samples.bundle_ok Index.fresh in
  first = (Return (Index.built Samples.production []), snd first)
  /\ Index.initializeApp Samples.development Samples.bundle_broken (snd first)
     = (Return (Index.built Samples.production []), snd first).
Proof.
  intros first.
  assert (H : first = (Return (Index.built Samples.production []), snd first))
    by reflexivity.
  exact (conj H
           (initializeApp_sets_up_once Samples.production Samples.bundle_ok Index.fresh
              (snd first) (Index.built Samples.production []) H
              Samples.development Samples.bundle_broken)).
Defined.

Lemma initializeApp_outside_development_witness :
  Index.app Index.fresh = None
  /\ Index.env Samples.capitalised <> "development"
  /\ Index.initializeApp Samples.capitalised Samples.bundle_ok Index.fresh
     = Index.initializeApp Samples.capitalised Samples.bundle_broken Index.fresh
  /\ exists a p',
       Index.initializeApp Samples.capitalised Samples.bundle_ok Index.fresh = (Return a, p')
       /\ map Index.handle (Index.stack a)
          = [Index.cors; Index.compression; Index.helmet; Index.express_static "public";
             Index.routes].
Proof.
  assert (He : Index.env Samples.capitalised <> "development") by discriminate.
  exact (conj eq_refl (conj He
           (initializeApp_outside_development Samples.capitalised Samples.bundle_ok
              Samples.bundle_broken Index.fresh eq_refl He))).
Defined.

Lemma initializeApp_failed_start_witness :
  let e := Error "Error opening file ./app/api/definitions/openapi.yml" in
  let failed := Index.initializeApp Samples.development Samples.bundle_broken Index.fresh in
  Index.app Index.fresh = None
  /\ Index.env Samples.development = "development"
  /\ Samples.bundle_broken (Index.specPath Samples.development) = Throw e
  /\ fst failed = Throw e
  /\ forall (config' : Index.AppConfig) (bundle' : string -> Result string),
       exists a,
         Index.initializeApp config' bundle' (snd failed) = (Return a, snd failed)
         /\ map Index.handle (Index.stack a)
            = [Index.cors; Index.compression; Index.helmet; Index.morgan "dev"]
         /\ Index.serves_routes a = false
         /\ Index.settings a = ∅.
Proof.
  intros e failed.
  exact (conj eq_refl (conj eq_refl (conj eq_refl
           (initializeApp_failed_start Samples.development Samples.bundle_broken
              Index.fresh e eq_refl eq_refl eq_refl)))).
Defined.

Lemma initializeApp_layers_witness :
  let doc := "bundle of ./app/api/definitions/openapi.yml" in
  let started := Index.initializeApp Samples.development Samples.bundle_ok Index.fresh in
  Index.app Index.fresh = None
  /\ started = (Return (Index.built Samples.development (Index.development_layers doc)),
                snd started)
  /\ exists middle,
       Index.stack (Index.built Samples.development (Index.development_layers doc))
       = (Index.at_root [Index.cors; Index.compression; Index.helmet] ++ middle
          ++ Index.at_root [Index.express_static "public"; Index.routes])%list
       /\ (middle = []
           \/ (Index.env Samples.development = "development"
               /\ exists openApiDoc,
                    Samples.bundle_ok (Index.specPath Samples.development) = Return openApiDoc
                    /\ middle
                       = [ {| Index.mountpath := "/"; Index.handle := Index.morgan "dev" |};
                           {| Index.mountpath := "/api-docs";
                              Index.handle := Index.swaggerUi_serve |};
                           {| Index.mountpath := "/api-docs";
                              Index.handle := Index.swaggerUi_setup openApiDoc |} ])).
Proof.
  intros doc started.
  assert (H : started
              = (Return (Index.built Samples.development (Index.development_layers doc)),
                 snd started)) by reflexivity.
  exact (conj eq_refl (conj H
           (initializeApp_layers Samples.development Samples.bundle_ok Index.fresh
              (snd started) _ eq_refl H))).
Defined.
